(** * jira_weekly_report: a shallow embedding of [scripts/jira_weekly_report.py]

    The script builds three JQL queries for a look-back window, runs them
    against the Jira search endpoint, aggregates the answers into a summary,
    renders the summary as an HTML body and mails it.

    Python values that come back from the tracker are kept dynamically typed
    ([pyval]); dictionaries are association lists in insertion order;
    exceptions are values of [exn] threaded through a small trace-and-error
    monad [M]; every observable effect (HTTP request, log record, printed
    text, SMTP command) is appended to the trace. *)

From Stdlib Require Import String Ascii List ZArith Lia Bool.
From Stdlib Require Import DecimalString.
Import ListNotations.
Open Scope string_scope.
Open Scope Z_scope.
Set Warnings "-register-all".

(* ================================================================== *)
(** * Part I: the model *)
(* ================================================================== *)

(** ** Text helpers (Python [str] methods used by the script) *)

Module Text.

(** [p] occurs in [s] as a contiguous run of characters. *)
Definition Substring (p s : string) : Prop :=
  exists a b, s = a ++ p ++ b.

(** [s] ends with [p]. *)
Definition EndsWith (p s : string) : Prop :=
  exists a, s = a ++ p.

(** Executable occurrence test ([p in s]). *)
Fixpoint contains (p s : string) : bool :=
  prefix p s ||
  match s with
  | EmptyString => false
  | String _ s' => contains p s'
  end.

(** [sep.join(xs)]. *)
Definition join (sep : string) (xs : list string) : string :=
  String.concat sep xs.

(** ["".join(xs)]. *)
Definition concat_all (xs : list string) : string :=
  fold_right append "" xs.

Definition is_upper (c : ascii) : bool :=
  let n := nat_of_ascii c in (65 <=? n)%nat && (n <=? 90)%nat.
Definition is_lower (c : ascii) : bool :=
  let n := nat_of_ascii c in (97 <=? n)%nat && (n <=? 122)%nat.
Definition is_alpha (c : ascii) : bool := is_upper c || is_lower c.

Definition to_upper (c : ascii) : ascii :=
  if is_lower c then ascii_of_nat (nat_of_ascii c - 32) else c.
Definition to_lower (c : ascii) : ascii :=
  if is_upper c then ascii_of_nat (nat_of_ascii c + 32) else c.

Fixpoint map_chars (f : ascii -> ascii) (s : string) : string :=
  match s with
  | EmptyString => EmptyString
  | String c s' => String (f c) (map_chars f s')
  end.

(** [s.lower()] on ASCII letters; other bytes are left alone. *)
Definition lower (s : string) : string := map_chars to_lower s.

(** [s.capitalize()]: first character upper-cased, the rest lower-cased. *)
Definition capitalize (s : string) : string :=
  match s with
  | EmptyString => EmptyString
  | String c s' => String (to_upper c) (lower s')
  end.

(** [s.title()]: a letter that follows a non-letter is upper-cased, a
    letter that follows a letter is lower-cased. [prev] tells whether the
    previous character was a letter. Letters are the ASCII letters, which
    covers the labels of a report; bytes outside ASCII are left as they
    are, where Python also cases the letters of other scripts. *)
Fixpoint title_from (prev : bool) (s : string) : string :=
  match s with
  | EmptyString => EmptyString
  | String c s' =>
      String (if prev then to_lower c else to_upper c)
             (title_from (is_alpha c) s')
  end.
Definition title (s : string) : string := title_from false s.

(** [s.rstrip("/")]. [rstrip_slash] drops the trailing run of slashes. *)
Fixpoint rstrip_slash (s : string) : string :=
  match s with
  | EmptyString => EmptyString
  | String c s' =>
      match rstrip_slash s' with
      | EmptyString => if Ascii.eqb c "/" then EmptyString else String c EmptyString
      | r => String c r
      end
  end.

(** Decimal rendering of an integer, as [str(n)] prints it. *)
Definition of_Z (n : Z) : string :=
  NilZero.string_of_int (Z.to_int n).

(** Zero-padded decimal rendering to at least [w] digits ([%0wd]) of a
    non-negative number. *)
Fixpoint zeros (k : nat) : string :=
  match k with O => "" | S k' => String "0" (zeros k') end.
Definition pad (w : nat) (n : Z) : string :=
  let s := of_Z n in zeros (w - String.length s) ++ s.

(** Python truthiness of a string: non-empty. *)
Definition truthy (s : string) : bool :=
  match s with EmptyString => false | _ => true end.

End Text.

(** ** Dates ([datetime.datetime], the part the script uses) *)

Record datetime := mk_datetime {
  year : Z; month : Z; day : Z;
  hour : Z; minute : Z; second : Z; microsecond : Z
}.

Module Calendar.

Definition is_leap (y : Z) : bool :=
  (y mod 4 =? 0) && (negb (y mod 100 =? 0) || (y mod 400 =? 0)).

Definition days_before_year (y : Z) : Z :=
  let p := y - 1 in p * 365 + p / 4 - p / 100 + p / 400.

Definition days_in_month (y m : Z) : Z :=
  if (m =? 2) then (if is_leap y then 29 else 28)
  else if (m =? 4) || (m =? 6) || (m =? 9) || (m =? 11) then 30 else 31.

(** Days of the year before the first of month [m], [m] counted from 1. *)
Fixpoint days_before_month_nat (y : Z) (m : nat) : Z :=
  match m with
  | O => 0
  | S O => 0
  | S m' => days_before_month_nat y m' + days_in_month y (Z.of_nat m')
  end.
Definition days_before_month (y m : Z) : Z :=
  days_before_month_nat y (Z.to_nat m).

(** [date.toordinal()]: 1 is 0001-01-01. *)
Definition ymd2ord (y m d : Z) : Z :=
  days_before_year y + days_before_month y m + d.

Definition DI400Y : Z := 146097.
Definition DI100Y : Z := 36524.
Definition DI4Y : Z := 1461.
Definition MAXORDINAL : Z := 3652059.

(** [date.fromordinal(n)]. *)
Definition ord2ymd (n0 : Z) : Z * Z * Z :=
  let n := n0 - 1 in
  let n400 := n / DI400Y in let n := n mod DI400Y in
  let n100 := n / DI100Y in let n := n mod DI100Y in
  let n4 := n / DI4Y in let n := n mod DI4Y in
  let n1 := n / 365 in let n := n mod 365 in
  let y := n400 * 400 + 1 + n100 * 100 + n4 * 4 + n1 in
  if (n1 =? 4) || (n100 =? 4) then (y - 1, 12, 31)
  else
    let m := Z.shiftr (n + 50) 5 in
    let preceding := days_before_month y m in
    if preceding >? n
    then (y, m - 1, n - (preceding - days_in_month y (m - 1)) + 1)
    else (y, m, n - preceding + 1).

(** The largest magnitude of [timedelta(days=...)]. *)
Definition MAX_DELTA_DAYS : Z := 999999999.

(** [d - timedelta(days=n)]; [None] stands for the [OverflowError] that
    the library raises when the delta or the result is out of range. *)
Definition sub_days (d : datetime) (n : Z) : option datetime :=
  if Z.abs n >? MAX_DELTA_DAYS then None
  else
    let o := ymd2ord (year d) (month d) (day d) - n in
    if (0 <? o) && (o <=? MAXORDINAL) then
      let '(y, m, dd) := ord2ymd o in
      Some (mk_datetime y m dd (hour d) (minute d) (second d) (microsecond d))
    else None.

(** [a <= b] on datetimes: field by field, most significant first. *)
Fixpoint lex_le (xs ys : list Z) : bool :=
  match xs, ys with
  | x :: xs', y :: ys' => (x <? y) || ((x =? y) && lex_le xs' ys')
  | _, _ => true
  end.
Definition fields (d : datetime) : list Z :=
  [year d; month d; day d; hour d; minute d; second d; microsecond d].
Definition le (a b : datetime) : bool := lex_le (fields a) (fields b).

(** [d.strftime('%Y-%m-%d')], as the C library of CPython on Linux prints
    it: month and day with two digits, the year as it is, without
    padding, so that a year below 1000 has fewer than four digits. *)
Definition strftime_Ymd (d : datetime) : string :=
  Text.of_Z (year d) ++ "-" ++ Text.pad 2 (month d) ++ "-" ++ Text.pad 2 (day d).

(** [str(d.date())], the ISO form: the year always with four digits. *)
Definition isoformat (d : datetime) : string :=
  Text.pad 4 (year d) ++ "-" ++ Text.pad 2 (month d) ++ "-" ++ Text.pad 2 (day d).

End Calendar.

(** ** [build_jql] *)

(** A Python [dict] with string keys: an association list in insertion
    order. A dict holds a key once; lookup takes the first entry. *)
Definition dict (V : Type) := list (string * V).

Fixpoint dict_get {V} (d : dict V) (k : string) : option V :=
  match d with
  | [] => None
  | (k', v) :: rest => if String.eqb k' k then Some v else dict_get rest k
  end.

(** [d[k] = v]: overwrite in place when [k] is present, append otherwise. *)
Fixpoint dict_set {V} (d : dict V) (k : string) (v : V) : dict V :=
  match d with
  | [] => [(k, v)]
  | (k', v') :: rest =>
      if String.eqb k' k then (k', v) :: rest else (k', v') :: dict_set rest k v
  end.

Definition build_jql (project_key : string) (start end_ : datetime)
    (extra_filters : string) : dict string :=
  let s := Calendar.strftime_Ymd start in
  let e := Calendar.strftime_Ymd end_ in
  let date_range := " >= '" ++ s ++ "' AND created <= '" ++ e ++ "'" in
  let created_clause := "project = " ++ project_key ++ " AND created" ++ date_range in
  let resolved_clause :=
    "project = " ++ project_key ++ " AND resolved >= '" ++ s
      ++ "' AND resolved <= '" ++ e ++ "'" in
  let open_clause :=
    "project = " ++ project_key ++ " AND statusCategory != Done AND updated >= '"
      ++ s ++ "'" in
  let add (clause : string) :=
    if Text.truthy extra_filters then clause ++ " AND " ++ extra_filters else clause in
  [ ("created", add created_clause);
    ("resolved", add resolved_clause);
    ("open", add open_clause) ].

(** [d[k]] for a key known to be present; the empty string otherwise. *)
Definition query_of (d : dict string) (k : string) : string :=
  match dict_get d k with Some q => q | None => "" end.

(** What [build_jql] appends to every clause for a given filter. *)
Definition filter_suffix (extra_filters : string) : string :=
  if Text.truthy extra_filters then " AND " ++ extra_filters else "".

(** The labels of the three queries, in the order the dict holds them. *)
Definition labels : list string := ["created"; "resolved"; "open"].

(** ** Python values, exceptions and effects *)

(** The values [response.json()] can hold. A float is carried as the text
    Python prints for it. *)
Inductive pyval :=
| PNone
| PBool (b : bool)
| PInt (n : Z)
| PFloat (printed : string)
| PStr (s : string)
| PList (items : list pyval)
| PDict (entries : list (string * pyval)).

Module PyStr.

Definition squote : ascii := "'"%char.
Definition dquote : ascii := ascii_of_nat 34.
Definition backslash : ascii := "\"%char.

Fixpoint has_char (c : ascii) (s : string) : bool :=
  match s with
  | EmptyString => false
  | String c' s' => Ascii.eqb c c' || has_char c s'
  end.

Definition hex_digit (n : nat) : ascii :=
  if (n <? 10)%nat then ascii_of_nat (48 + n) else ascii_of_nat (87 + n).

Definition escape_char (quote c : ascii) : string :=
  let n := nat_of_ascii c in
  if Ascii.eqb c quote || Ascii.eqb c backslash then String backslash (String c "")
  else if (n =? 9)%nat then String backslash "t"
  else if (n =? 10)%nat then String backslash "n"
  else if (n =? 13)%nat then String backslash "r"
  else if (n <? 32)%nat || (n =? 127)%nat then
    String backslash
      (String "x" (String (hex_digit (n / 16)) (String (hex_digit (n mod 16)) "")))
  else String c "".

Fixpoint escape (quote : ascii) (s : string) : string :=
  match s with
  | EmptyString => EmptyString
  | String c s' => escape_char quote c ++ escape quote s'
  end.

(** [repr(s)] for a string: double quotes only when the text has a single
    quote and no double quote. *)
Definition repr_str (s : string) : string :=
  let q := if has_char squote s && negb (has_char dquote s) then dquote else squote in
  String q (escape q s ++ String q "").

Fixpoint repr (v : pyval) : string :=
  match v with
  | PNone => "None"
  | PBool true => "True"
  | PBool false => "False"
  | PInt n => Text.of_Z n
  | PFloat p => p
  | PStr s => repr_str s
  | PList items => "[" ++ Text.join ", " (map repr items) ++ "]"
  | PDict entries =>
      "{" ++ Text.join ", "
               (map (fun kv => repr_str (fst kv) ++ ": " ++ repr (snd kv)) entries)
          ++ "}"
  end.

(** [str(v)], which is what an f-string and [%s] print. *)
Definition str (v : pyval) : string :=
  match v with
  | PStr s => s
  | _ => repr v
  end.

End PyStr.

Inductive exn :=
| EnvironmentError (msg : string)     (* an alias of OSError *)
| RequestException (detail : string)  (* requests' failures; a kind of OSError *)
| JSONDecodeError                     (* raised by [response.json()] *)
| SMTPException (detail : string)     (* smtplib's failures; a kind of OSError *)
| RuntimeError (msg : string)
| ValueError (msg : string)
| KeyError (key : string)
| TypeError
| AttributeError
| OverflowError
| OtherException (detail : string)
| KeyboardInterrupt.                  (* not an [Exception] *)

Definition is_RequestException (e : exn) : bool :=
  match e with RequestException _ | JSONDecodeError => true | _ => false end.

Definition is_SMTPException (e : exn) : bool :=
  match e with SMTPException _ => true | _ => false end.

(** [except EnvironmentError] catches every [OSError]. *)
Definition is_EnvironmentError (e : exn) : bool :=
  match e with
  | EnvironmentError _ | RequestException _ | JSONDecodeError | SMTPException _ => true
  | _ => false
  end.

(** [except Exception]. *)
Definition is_Exception (e : exn) : bool :=
  match e with KeyboardInterrupt => false | _ => true end.

(** [str(exc)]. *)
Definition exn_str (e : exn) : string :=
  match e with
  | EnvironmentError m | RuntimeError m | ValueError m => m
  | RequestException d | SMTPException d | OtherException d => d
  | KeyError k => PyStr.repr_str k
  | _ => ""
  end.

Record http_request := mk_request {
  url : string;
  params : dict pyval;
  auth : string * string;
  headers : dict string;
  verify : bool;
  timeout : Z
}.

(** What the script reads off a response. [json] is [None] when the body
    does not decode. *)
Record http_response := mk_response {
  status_code : Z;
  text : string;
  json : option pyval
}.

Inductive http_outcome :=
| HttpResponse (r : http_response)
| HttpRaises (e : exn).

Record email_message := mk_message {
  msg_subject : string;
  msg_from : string;
  msg_to : string;
  msg_plain : string;
  msg_html : string
}.

Inductive smtp_command :=
| SmtpConnect (host : string) (port : Z) (timeout : Z)
| SmtpStartTls
| SmtpLogin (username password : string)
| SmtpSendMessage (m : email_message)
| SmtpQuit.

Inductive level := INFO | ERROR.

Inductive event :=
| EvHttpGet (req : http_request)
| EvLog (lvl : level) (msg : string)
| EvPrint (s : string)
| EvSmtp (c : smtp_command).

(** Everything the run has done so far, oldest first. *)
Definition trace := list event.

(** The outside of the process. The tracker and the mail server answer a
    request given all that happened before it. *)
Record world := mk_world {
  environ : dict string;
  utcnow : datetime;
  http_get : trace -> http_request -> http_outcome;
  smtp_do : trace -> smtp_command -> option exn
}.

Inductive result (A : Type) :=
| Ok (a : A)
| Raise (e : exn).
Arguments Ok {A} a.
Arguments Raise {A} e.

(** Computations that may raise and that extend the trace. *)
Definition M (A : Type) := trace -> result A * trace.

Definition ret {A} (a : A) : M A := fun t => (Ok a, t).
Definition raise {A} (e : exn) : M A := fun t => (Raise e, t).
Definition bind {A B} (c : M A) (k : A -> M B) : M B :=
  fun t => match c t with
           | (Ok a, t') => k a t'
           | (Raise e, t') => (Raise e, t')
           end.
Definition lift {A} (r : result A) : M A := fun t => (r, t).
Definition emit (ev : event) : M unit := fun t => (Ok tt, (t ++ [ev])%list).
Definition log (lvl : level) (msg : string) : M unit := emit (EvLog lvl msg).

(** [try: x = c  except <class> as exc: h exc] followed by [k x]: the
    handler runs when [catches exc] holds, any other exception keeps
    propagating, and [k] continues after a [c] that did not raise. *)
Definition try_catch {A B} (catches : exn -> bool) (c : M A) (h : exn -> M B)
    (k : A -> M B) : M B :=
  fun t => match c t with
           | (Ok a, t') => k a t'
           | (Raise e, t') => if catches e then h e t' else (Raise e, t')
           end.

(** [try: c  finally: f], with [f]'s own failure taking precedence. *)
Definition finally {A} (c : M A) (f : M unit) : M A :=
  fun t => match c t with
           | (r, t') =>
               match f t' with
               | (Ok _, t'') => (r, t'')
               | (Raise e, t'') => (Raise e, t'')
               end
           end.

Declare Scope monad_scope.
Delimit Scope monad_scope with monad.
Notation "x <- c ;; k" := (bind c (fun x => k))
  (at level 61, c at next level, right associativity) : monad_scope.
Notation "' pat <- c ;; k" := (bind c (fun x => match x with pat => k end))
  (at level 61, pat pattern, c at next level, right associativity) : monad_scope.
Notation "c ;;; k" := (bind c (fun _ => k))
  (at level 61, right associativity) : monad_scope.
Open Scope monad_scope.

Definition rbind {A B} (r : result A) (k : A -> result B) : result B :=
  match r with Ok a => k a | Raise e => Raise e end.

(** A list comprehension whose element expression may raise. *)
Fixpoint map_result {A B} (f : A -> result B) (xs : list A) : result (list B) :=
  match xs with
  | [] => Ok []
  | x :: rest =>
      rbind (f x) (fun y => rbind (map_result f rest) (fun ys => Ok (y :: ys)))
  end.

(** A [for] loop that carries its variables in [acc]. *)
Fixpoint for_each {A S} (xs : list A) (body : A -> S -> M S) (acc : S) : M S :=
  match xs with
  | [] => ret acc
  | x :: rest => acc' <- body x acc ;; for_each rest body acc'
  end.

(** ** Dynamic operations on tracker data *)

(** [data.get(k, default)]: only a dict has the method. *)
Definition py_get (data : pyval) (k : string) (default : pyval) : result pyval :=
  match data with
  | PDict d => Ok (match dict_get d k with Some v => v | None => default end)
  | _ => Raise AttributeError
  end.

Fixpoint chars (s : string) : list pyval :=
  match s with
  | EmptyString => []
  | String c s' => PStr (String c "") :: chars s'
  end.

(** [for x in v]: lists yield their items, strings their characters, dicts
    their keys; nothing else is iterable. *)
Definition py_iter (v : pyval) : result (list pyval) :=
  match v with
  | PList l => Ok l
  | PStr s => Ok (chars s)
  | PDict d => Ok (map (fun kv => PStr (fst kv)) d)
  | _ => Raise TypeError
  end.

(** [v[k]] with a string subscript. *)
Definition py_getitem (v : pyval) (k : string) : result pyval :=
  match v with
  | PDict d => match dict_get d k with Some x => Ok x | None => Raise (KeyError k) end
  | _ => Raise TypeError
  end.

Definition py_len {A} (l : list A) : pyval := PInt (Z.of_nat (List.length l)).

(** ** Configuration *)

Record JiraConfig := mk_JiraConfig {
  base_url : string;
  project_key : string;
  auth_email : string;
  api_token : string;
  verify_ssl : bool
}.

Record SmtpConfig := mk_SmtpConfig {
  smtp_host : string;
  smtp_port : Z;
  smtp_username : string;
  smtp_password : string;
  smtp_sender : string;
  smtp_recipient : string;
  smtp_use_tls : bool
}.

(** [not os.getenv(name)]: unset, or set to the empty string. *)
Definition env_missing (env : dict string) (name : string) : bool :=
  match dict_get env name with
  | Some v => negb (Text.truthy v)
  | None => true
  end.

(** [os.environ[name]] for a name already checked. *)
Definition env_at (env : dict string) (name : string) : string :=
  match dict_get env name with Some v => v | None => "" end.

(** [os.environ.get(name, default)]. *)
Definition env_get (env : dict string) (name default : string) : string :=
  match dict_get env name with Some v => v | None => default end.

(** [int(s)] for text [s] of ASCII characters. Python reads more than
    that (digits and spaces of other scripts) and, from 640 digits on, may
    refuse a number for its length; statements that depend on how a port
    reads are therefore made for ASCII text of at most 640 characters
    ([in_domain]), where this reading is the one of [int]. *)
Module PyInt.

(** The blanks [int] skips in ASCII text: tab to carriage return, and the
    space. *)
Definition is_space (c : ascii) : bool :=
  let n := nat_of_ascii c in
  ((9 <=? n) && (n <=? 13) || (n =? 32))%nat.

Fixpoint all_ascii (s : string) : bool :=
  match s with
  | EmptyString => true
  | String c s' => (nat_of_ascii c <? 128)%nat && all_ascii s'
  end.

Definition in_domain (s : string) : bool :=
  all_ascii s && (String.length s <=? 640)%nat.

Definition is_digit (c : ascii) : bool :=
  let n := nat_of_ascii c in ((48 <=? n) && (n <=? 57))%nat.

Fixpoint lstrip (s : string) : string :=
  match s with
  | String c s' => if is_space c then lstrip s' else s
  | EmptyString => EmptyString
  end.

Fixpoint rstrip (s : string) : string :=
  match s with
  | EmptyString => EmptyString
  | String c s' =>
      match rstrip s' with
      | EmptyString => if is_space c then EmptyString else String c EmptyString
      | r => String c r
      end
  end.

(** Digits with single underscores between them. *)
Fixpoint digits (s : string) (acc : Z) (after_digit : bool) : option Z :=
  match s with
  | EmptyString => if after_digit then Some acc else None
  | String c s' =>
      if is_digit c then digits s' (acc * 10 + Z.of_nat (nat_of_ascii c - 48)) true
      else if Ascii.eqb c "_" && after_digit then digits s' acc false
      else None
  end.

(** [int(s)] for a decimal literal. *)
Definition parse (s : string) : option Z :=
  match rstrip (lstrip s) with
  | String "-" s' => option_map Z.opp (digits s' 0 false)
  | String "+" s' => digits s' 0 false
  | s' => digits s' 0 false
  end.

End PyInt.

Definition jira_required : list string :=
  ["JIRA_BASE_URL"; "JIRA_PROJECT_KEY"; "JIRA_AUTH_EMAIL"; "JIRA_API_TOKEN"].

Definition smtp_required : list string :=
  ["SMTP_HOST"; "SMTP_PORT"; "SMTP_USERNAME"; "SMTP_PASSWORD"; "SMTP_SENDER";
   "SMTP_RECIPIENT"].

Definition JiraConfig_from_env (env : dict string) : result JiraConfig :=
  let missing := filter (env_missing env) jira_required in
  match missing with
  | _ :: _ =>
      Raise (EnvironmentError
               ("Missing required environment variables: " ++ Text.join ", " missing))
  | [] =>
      Ok {| base_url := Text.rstrip_slash (env_at env "JIRA_BASE_URL");
            project_key := env_at env "JIRA_PROJECT_KEY";
            auth_email := env_at env "JIRA_AUTH_EMAIL";
            api_token := env_at env "JIRA_API_TOKEN";
            verify_ssl :=
              String.eqb (Text.lower (env_get env "JIRA_VERIFY_SSL" "true")) "true" |}
  end.

Definition SmtpConfig_from_env (env : dict string) : result SmtpConfig :=
  let missing := filter (env_missing env) smtp_required in
  match missing with
  | _ :: _ =>
      Raise (EnvironmentError
               ("Missing required SMTP environment variables: "
                  ++ Text.join ", " missing))
  | [] =>
      match PyInt.parse (env_at env "SMTP_PORT") with
      | None =>
          Raise (ValueError
                   ("invalid literal for int() with base 10: "
                      ++ String.substring 0 200
                           (PyStr.repr_str (env_at env "SMTP_PORT"))))
      | Some port =>
          Ok {| smtp_host := env_at env "SMTP_HOST";
                smtp_port := port;
                smtp_username := env_at env "SMTP_USERNAME";
                smtp_password := env_at env "SMTP_PASSWORD";
                smtp_sender := env_at env "SMTP_SENDER";
                smtp_recipient := env_at env "SMTP_RECIPIENT";
                smtp_use_tls :=
                  String.eqb (Text.lower (env_get env "SMTP_USE_TLS" "true")) "true" |}
      end
  end.

(** ** [call_jira_api] *)

(** [requests.get(...)]: the request goes out, the tracker answers or the
    transport fails. *)
Definition requests_get (w : world) (req : http_request) : M http_response :=
  fun t =>
    match http_get w t req with
    | HttpResponse r => (Ok r, (t ++ [EvHttpGet req])%list)
    | HttpRaises e => (Raise e, (t ++ [EvHttpGet req])%list)
    end.

(** [response.json()]. *)
Definition response_json (r : http_response) : result pyval :=
  match json r with
  | Some v => Ok v
  | None => Raise JSONDecodeError
  end.

Definition MAX_RESULTS : Z := 1000.

Definition search_request (config : JiraConfig) (jql : string) : http_request :=
  {| url := base_url config ++ "/rest/api/3/search";
     params := [("jql", PStr jql); ("fields", PStr "key"); ("maxResults", PInt MAX_RESULTS)];
     auth := (auth_email config, api_token config);
     headers := [("Accept", "application/json")];
     verify := verify_ssl config;
     timeout := 30 |}.

(** The part of [call_jira_api] after the status check: decode the body and
    pick the total and the keys. *)
Definition parse_search (response : http_response) : result (pyval * list pyval) :=
  rbind (response_json response) (fun data =>
  rbind (py_get data "issues" (PList [])) (fun issues =>
  rbind (py_iter issues) (fun items =>
  rbind (map_result (fun issue => py_getitem issue "key") items) (fun issue_keys =>
  rbind (py_get data "total" (py_len issue_keys)) (fun total =>
  Ok (total, issue_keys)))))).

Definition call_jira_api (w : world) (config : JiraConfig) (jql : string)
    : M (pyval * list pyval) :=
  try_catch is_RequestException
    (requests_get w (search_request config jql))
    (fun exc => log ERROR ("Failed to call Jira API: " ++ exn_str exc) ;;; raise exc)
    (fun response =>
       if negb (status_code response =? 200) then
         log ERROR ("Jira API returned " ++ Text.of_Z (status_code response) ++ ": "
                      ++ text response) ;;;
         raise (RuntimeError ("Jira API error " ++ Text.of_Z (status_code response)))
       else
         lift (parse_search response)).

(** ** [summarize_issues] *)

Record JiraIssueSummary := mk_summary {
  created_count : pyval;
  resolved_count : pyval;
  open_count : pyval;
  issue_keys : dict (list pyval)
}.

(** [counts.get(k, 0)]. *)
Definition count_of (counts : dict pyval) (k : string) : pyval :=
  match dict_get counts k with Some v => v | None => PInt 0 end.

(** One turn of the loop over [jql_queries.items()]. *)
Definition summarize_step (w : world) (config : JiraConfig)
    (item : string * string) (acc : dict pyval * dict (list pyval))
    : M (dict pyval * dict (list pyval)) :=
  let '(label, jql) := item in
  let '(counts, keys_by_label) := acc in
  '(total, keys) <- call_jira_api w config jql ;;
  log INFO (Text.capitalize label ++ " issues: " ++ PyStr.str total) ;;;
  ret (dict_set counts label total, dict_set keys_by_label label keys).

Definition summarize_issues (w : world) (config : JiraConfig)
    (start end_ : datetime) (extra_filters : string) : M JiraIssueSummary :=
  let jql_queries := build_jql (project_key config) start end_ extra_filters in
  '(counts, keys_by_label) <-
    for_each jql_queries (summarize_step w config) ([], []) ;;
  ret {| created_count := count_of counts "created";
         resolved_count := count_of counts "resolved";
         open_count := count_of counts "open";
         issue_keys := keys_by_label |}.

(** ** [build_email_body] *)

Definition link_item (config : JiraConfig) (key : pyval) : string :=
  "<li><a href='" ++ base_url config ++ "/browse/" ++ PyStr.str key ++ "'>"
    ++ PyStr.str key ++ "</a></li>".

(** The lines one turn of the loop over [summary.issue_keys.items()] appends. *)
Definition label_lines (config : JiraConfig) (item : string * list pyval)
    : list string :=
  let '(label, keys) := item in
  let heading := "<p><strong>" ++ Text.title label ++ " issues</strong>:</p>" in
  match keys with
  | [] => [heading; "<p>No issues found.</p>"]
  | _ :: _ =>
      let items := Text.concat_all (map (link_item config) keys) in
      [heading; "<ul>" ++ items ++ "</ul>"]
  end.

Definition header_lines (summary : JiraIssueSummary) : list string :=
  [ "<h2>Weekly Jira Project Summary</h2>";
    "<ul>";
    "  <li>Issues created: <strong>" ++ PyStr.str (created_count summary)
      ++ "</strong></li>";
    "  <li>Issues resolved: <strong>" ++ PyStr.str (resolved_count summary)
      ++ "</strong></li>";
    "  <li>Issues currently open: <strong>" ++ PyStr.str (open_count summary)
      ++ "</strong></li>";
    "</ul>";
    "<h3>Issue Links</h3>" ].

Definition body_lines (summary : JiraIssueSummary) (config : JiraConfig)
    : list string :=
  fold_left (fun lines item => (lines ++ label_lines config item)%list)
            (issue_keys summary) (header_lines summary).

Definition newline : string := String (ascii_of_nat 10) "".

Definition build_email_body (summary : JiraIssueSummary) (config : JiraConfig)
    : string :=
  Text.join newline (body_lines summary config).

(** ** [send_email] *)

Definition smtp_cmd (w : world) (c : smtp_command) : M unit :=
  fun t =>
    match smtp_do w t c with
    | None => (Ok tt, (t ++ [EvSmtp c])%list)
    | Some e => (Raise e, (t ++ [EvSmtp c])%list)
    end.

Module Header.

(** The text after a line boundary at the head of [s], for the boundaries
    of [str.splitlines]: CR LF as one, LF, VT, FF, CR, FS, GS, RS, and,
    in UTF-8, NEL (C2 85), LS (E2 80 A8) and PS (E2 80 A9). *)
Definition strip_break (s : string) : option string :=
  match s with
  | EmptyString => None
  | String c rest =>
      let n := nat_of_ascii c in
      if (n =? 13)%nat then
        match rest with
        | String c2 rest2 => if (nat_of_ascii c2 =? 10)%nat then Some rest2 else Some rest
        | EmptyString => Some rest
        end
      else if ((10 <=? n) && (n <=? 12) || (28 <=? n) && (n <=? 30))%nat then Some rest
      else if (n =? 194)%nat then
        match rest with
        | String c2 rest2 => if (nat_of_ascii c2 =? 133)%nat then Some rest2 else None
        | EmptyString => None
        end
      else if (n =? 226)%nat then
        match rest with
        | String c2 (String c3 rest3) =>
            if ((nat_of_ascii c2 =? 128)
                && ((nat_of_ascii c3 =? 168) || (nat_of_ascii c3 =? 169)))%nat
            then Some rest3 else None
        | _ => None
        end
      else None
  end.

(** The text after the first line boundary of [s]. *)
Fixpoint after_first_break (s : string) : option string :=
  match s with
  | EmptyString => None
  | String c s' =>
      match strip_break (String c s') with
      | Some rest => Some rest
      | None => after_first_break s'
      end
  end.

(** [len(s.splitlines()) > 1]: a line boundary with text after it. *)
Definition multi_line (s : string) : bool :=
  match after_first_break s with
  | Some rest => Text.truthy rest
  | None => false
  end.

Definition error : string :=
  "Header values may not contain linefeed or carriage return characters".

End Header.

(** The first lines of [send_email]: the message and its headers. Setting
    a header to a value of several lines raises [ValueError]. *)
Definition compose_message (smtp : SmtpConfig) (subject body_html : string)
    : result email_message :=
  if Header.multi_line subject then Raise (ValueError Header.error)
  else if Header.multi_line (smtp_sender smtp) then Raise (ValueError Header.error)
  else if Header.multi_line (smtp_recipient smtp) then Raise (ValueError Header.error)
  else
    Ok {| msg_subject := subject;
          msg_from := smtp_sender smtp;
          msg_to := smtp_recipient smtp;
          msg_plain := "This report requires an HTML capable email client.";
          msg_html := body_html |}.

Definition send_email (w : world) (smtp : SmtpConfig) (subject body_html : string)
    : M unit :=
  message <- lift (compose_message smtp subject body_html) ;;
  try_catch is_SMTPException
    (smtp_cmd w (SmtpConnect (smtp_host smtp) (smtp_port smtp) 30) ;;;
     finally
       ((if smtp_use_tls smtp then smtp_cmd w SmtpStartTls else ret tt) ;;;
        smtp_cmd w (SmtpLogin (smtp_username smtp) (smtp_password smtp)) ;;;
        smtp_cmd w (SmtpSendMessage message) ;;;
        log INFO ("Email successfully sent to " ++ smtp_recipient smtp))
       (smtp_cmd w SmtpQuit))
    (fun exc => log ERROR ("Failed to send email: " ++ exn_str exc) ;;; raise exc)
    ret.

(** ** [main] *)

(** What [parse_args] hands to [main]. *)
Record Namespace := mk_args {
  days : Z;
  filters : string;
  dry_run : bool
}.

Definition EXIT_OK : Z := 0.
Definition EXIT_CONFIG : Z := 1.
Definition EXIT_SUMMARIZE : Z := 2.
Definition EXIT_DELIVERY : Z := 3.

(** The steps of [main] after both configurations are loaded. *)
Definition run_report (w : world) (args : Namespace) (start end_ : datetime)
    (jira_config : JiraConfig) (smtp_config : SmtpConfig) : M Z :=
  try_catch is_Exception
    (summarize_issues w jira_config start end_ (filters args))
    (fun exc => log ERROR "Failed to summarize issues" ;;; ret EXIT_SUMMARIZE)
    (fun summary =>
       let body := build_email_body summary jira_config in
       let subject :=
         "Weekly Jira Report for " ++ project_key jira_config ++ " ("
           ++ Calendar.isoformat start ++ " - " ++ Calendar.isoformat end_
           ++ ")" in
       emit (EvPrint body) ;;;
       if dry_run args then
         log INFO "Dry run enabled; not sending email" ;;; ret EXIT_OK
       else
         try_catch is_Exception
           (send_email w smtp_config subject body)
           (fun exc => log ERROR "Failed to send email" ;;; ret EXIT_DELIVERY)
           (fun _ => ret EXIT_OK)).

(** [main], from the parsed arguments on. [Ok n] is [return n]; [Raise e]
    is an exception that leaves [main]. *)
Definition main (w : world) (args : Namespace) : M Z :=
  let end_ := utcnow w in
  match Calendar.sub_days end_ (days args) with
  | None => raise OverflowError
  | Some start =>
      match rbind (JiraConfig_from_env (environ w)) (fun jira_config =>
            rbind (SmtpConfig_from_env (environ w)) (fun smtp_config =>
            Ok (jira_config, smtp_config))) with
      | Raise exc =>
          if is_EnvironmentError exc then
            log ERROR ("Configuration error: " ++ exn_str exc) ;;; ret EXIT_CONFIG
          else raise exc
      | Ok (jira_config, smtp_config) =>
          run_report w args start end_ jira_config smtp_config
      end
  end.

(** ** Reading a trace *)

Definition http_requests (t : trace) : list http_request :=
  flat_map (fun ev => match ev with EvHttpGet r => [r] | _ => [] end) t.

Definition printed (t : trace) : list string :=
  flat_map (fun ev => match ev with EvPrint s => [s] | _ => [] end) t.

Definition smtp_commands (t : trace) : list smtp_command :=
  flat_map (fun ev => match ev with EvSmtp c => [c] | _ => [] end) t.

(** ** Reading links back out of a body

    The reading half of the round trip. The script only writes markup;
    this reader recognises the one anchor form the renderer writes,
    [<a href='HREF'>TEXT</a>], and takes target and text as they stand: it
    decodes no character reference, so it reads what a reader of HTML
    reads only where target and text hold no ampersand. *)

Module Markup.

(** [s] without a leading [p], when it has one. *)
Fixpoint strip_prefix (p s : string) : option string :=
  match p, s with
  | EmptyString, _ => Some s
  | String a p', String b s' => if Ascii.eqb a b then strip_prefix p' s' else None
  | String _ _, EmptyString => None
  end.

(** The text before the first [c] and the text after it. *)
Fixpoint split_at (c : ascii) (s : string) : option (string * string) :=
  match s with
  | EmptyString => None
  | String c' s' =>
      if Ascii.eqb c' c then Some (EmptyString, s')
      else match split_at c s' with
           | Some (a, b) => Some (String c' a, b)
           | None => None
           end
  end.

(** An anchor element [<a href='HREF'>TEXT</a>] at the head of [s], as
    the pair of its target and its text. *)
Definition anchor_at (s : string) : option (string * string) :=
  match strip_prefix "<a href='" s with
  | None => None
  | Some r1 =>
      match split_at "'" r1 with
      | None => None
      | Some (href, r2) =>
          match strip_prefix ">" r2 with
          | None => None
          | Some r3 =>
              match split_at "<" r3 with
              | None => None
              | Some (txt, r4) =>
                  match strip_prefix "/a>" r4 with
                  | None => None
                  | Some _ => Some (href, txt)
                  end
              end
          end
      end
  end.

(** All anchors of a document, in document order. *)
Fixpoint links (s : string) : list (string * string) :=
  match s with
  | EmptyString => []
  | String c s' =>
      match anchor_at (String c s') with
      | Some l => l :: links s'
      | None => links s'
      end
  end.

Definition hrefs (s : string) : list string := map fst (links s).

(** No anchor can start inside [s], whatever follows it: every [<] of
    [s] is followed, within [s], by a character other than [a]. *)
Fixpoint inert (s : string) : bool :=
  match s with
  | EmptyString => true
  | String c s' =>
      (if Ascii.eqb c "<"
       then match s' with
            | EmptyString => false
            | String c2 _ => negb (Ascii.eqb c2 "a")
            end
       else true) && inert s'
  end.

(** Reading [s], whatever follows it, yields the anchors [ls] and then
    the anchors of what follows. *)
Definition emits (s : string) (ls : list (string * string)) : Prop :=
  forall t, links (s ++ t) = (ls ++ links t)%list.

(** Text that stands for itself inside an attribute value and inside an
    element: no single quote, no opening angle bracket, and no ampersand,
    so that it holds no character reference a reader of HTML would have
    to decode. *)
Definition plain (s : string) : bool :=
  negb (PyStr.has_char "'" s) && negb (PyStr.has_char "<" s)
  && negb (PyStr.has_char "&" s).

End Markup.

(** The links one label is expected to render to: for each of its keys in
    order, the browse URL and the key. *)
Definition anchors_of (config : JiraConfig) (item : string * list pyval)
    : list (string * string) :=
  map (fun key => (base_url config ++ "/browse/" ++ PyStr.str key, PyStr.str key))
      (snd item).

(** The links a summary is expected to render to, label after label. *)
Definition expected_links (summary : JiraIssueSummary) (config : JiraConfig)
    : list (string * string) :=
  flat_map (anchors_of config) (issue_keys summary).

(** A summary all of whose texts can be embedded in the markup as they are. *)
Definition embeddable (summary : JiraIssueSummary) (config : JiraConfig) : bool :=
  Markup.plain (base_url config)
  && negb (PyStr.has_char "<" (PyStr.str (created_count summary)))
  && negb (PyStr.has_char "<" (PyStr.str (resolved_count summary)))
  && negb (PyStr.has_char "<" (PyStr.str (open_count summary)))
  && forallb (fun item : string * list pyval =>
                negb (PyStr.has_char "<" (fst item))
                && forallb (fun key => Markup.plain (PyStr.str key)) (snd item))
             (issue_keys summary).

(** ** Vocabulary of the statements *)

(** The tracker answered, and with status 200. *)
Definition is_success (o : http_outcome) : bool :=
  match o with
  | HttpResponse r => status_code r =? 200
  | HttpRaises _ => false
  end.

(** [issue] is a JSON object whose member ["key"] is [k]. *)
Definition has_key (issue k : pyval) : Prop :=
  exists fields, issue = PDict fields /\ dict_get fields "key" = Some k.

(** The reading of "the failure carries the response body": the body can
    be read back from the exception raised for a non-200 response. *)
Definition api_error_carries_body : Prop :=
  exists body_of : exn -> string,
    forall w config jql t r,
      http_get w t (search_request config jql) = HttpResponse r ->
      status_code r <> 200 ->
      exists e t', call_jira_api w config jql t = (Raise e, t') /\ body_of e = text r.

(** The query and the request a run makes for a label. *)
Definition query_for (config : JiraConfig) (start end_ : datetime)
    (extra_filters label : string) : string :=
  query_of (build_jql (project_key config) start end_ extra_filters) label.

Definition request_for (config : JiraConfig) (start end_ : datetime)
    (extra_filters label : string) : http_request :=
  search_request config (query_for config start end_ extra_filters label).

(** The record the loop logs after a successful query. *)
Definition count_log (label : string) (total : pyval) : event :=
  EvLog INFO (Text.capitalize label ++ " issues: " ++ PyStr.str total).

(** ** Vocabulary of the further properties *)

(** A run of [k] slashes. *)
Fixpoint slashes (k : nat) : string :=
  match k with O => "" | S k' => String "/" (slashes k') end.

(** The names of [required] that the environment lacks, in their order. *)
Definition missing_of (env : dict string) (required : list string) : list string :=
  filter (env_missing env) required.

(** The message [send_email] composes. *)
Definition composed_message (smtp : SmtpConfig) (subject body_html : string)
    : email_message :=
  {| msg_subject := subject;
     msg_from := smtp_sender smtp;
     msg_to := smtp_recipient smtp;
     msg_plain := "This report requires an HTML capable email client.";
     msg_html := body_html |}.

(** The command that opens the session of [send_email]. *)
Definition connect_command (smtp : SmtpConfig) : smtp_command :=
  SmtpConnect (smtp_host smtp) (smtp_port smtp) 30.

(** The subject [main] gives the report. *)
Definition report_subject (jira_config : JiraConfig) (start end_ : datetime) : string :=
  "Weekly Jira Report for " ++ project_key jira_config ++ " ("
    ++ Calendar.isoformat start ++ " - " ++ Calendar.isoformat end_ ++ ")".

(** The messages handed to the mail server, and the log records written. *)
Definition sent_messages (t : trace) : list email_message :=
  flat_map (fun ev => match ev with
                      | EvSmtp (SmtpSendMessage m) => [m]
                      | _ => []
                      end) t.

Definition logged (t : trace) : list (level * string) :=
  flat_map (fun ev => match ev with EvLog l m => [(l, m)] | _ => [] end) t.

(** ** Sample data *)

Module Sample.

Definition start : datetime := mk_datetime 2024 6 3 9 30 0 0.
Definition end_ : datetime := mk_datetime 2024 6 10 9 30 0 0.

Definition config : JiraConfig :=
  {| base_url := "https://jira.example.org";
     project_key := "SCAL";
     auth_email := "reports@example.org";
     api_token := "token";
     verify_ssl := true |}.

Definition issue (k : string) : pyval := PDict [("key", PStr k)].

(** A world without environment whose tracker always answers [o]. *)
Definition answering (o : http_outcome) : world :=
  {| environ := [];
     utcnow := end_;
     http_get := fun _ _ => o;
     smtp_do := fun _ _ => None |}.

(** A 200 response carrying 1001 issues. *)
Definition oversized : http_response :=
  {| status_code := 200;
     text := "";
     json := Some (PDict [("total", PInt 1001);
                          ("issues", PList (repeat (issue "SCAL-1") 1001))]) |}.

(** A 200 response with two issues out of a reported 5000. *)
Definition first_page : http_response :=
  {| status_code := 200;
     text := "";
     json := Some (PDict [("total", PInt 5000);
                          ("issues", PList [issue "SCAL-123"; issue "SCAL-118"])]) |}.

(** A 200 response without a [total] member. *)
Definition untotalled : http_response :=
  {| status_code := 200;
     text := "";
     json := Some (PDict [("issues", PList [issue "SCAL-123"; issue "SCAL-118"])]) |}.

Definition summary : JiraIssueSummary :=
  {| created_count := PInt 12;
     resolved_count := PInt 9;
     open_count := PInt 5;
     issue_keys :=
       [("created", [PStr "SCAL-124"; PStr "SCAL-123"]);
        ("resolved", []);
        ("open", [PStr "SCAL-123"; PStr "SCAL-118"; PStr "SCAL-117"; PStr "SCAL-110"])] |}.

(** A summary with a key that holds a single quote. *)
Definition quoted : JiraIssueSummary :=
  {| created_count := PInt 1;
     resolved_count := PInt 0;
     open_count := PInt 1;
     issue_keys := [("open", [PStr "SCAL-1'0"])] |}.

Definition page (total : Z) (keys : list string) : http_response :=
  {| status_code := 200;
     text := "";
     json := Some (PDict [("total", PInt total);
                          ("issues", PList (map issue keys))]) |}.

Definition full_environ : dict string :=
  [ ("JIRA_BASE_URL", "https://jira.example.org/");
    ("JIRA_PROJECT_KEY", "SCAL");
    ("JIRA_AUTH_EMAIL", "reports@example.org");
    ("JIRA_API_TOKEN", "token");
    ("SMTP_HOST", "mail.example.org");
    ("SMTP_PORT", "587");
    ("SMTP_USERNAME", "reports");
    ("SMTP_PASSWORD", "secret");
    ("SMTP_SENDER", "reports@example.org");
    ("SMTP_RECIPIENT", "lead@example.org") ].

(** The tracker of the end-to-end scenario: 12 created, 9 resolved, 5 open
    with four keys on the page. *)
Definition scenario_tracker (t : trace) (_ : http_request) : http_outcome :=
  match http_requests t with
  | [] => HttpResponse (page 12 ["SCAL-124"; "SCAL-123"])
  | [_] => HttpResponse (page 9 [])
  | _ => HttpResponse (page 5 ["SCAL-123"; "SCAL-118"; "SCAL-117"; "SCAL-110"])
  end.

Definition scenario : world :=
  {| environ := full_environ;
     utcnow := end_;
     http_get := scenario_tracker;
     smtp_do := fun _ _ => None |}.

(** The same world with the mail password unset. *)
Definition without_password : world :=
  {| environ := filter (fun kv => negb (String.eqb (fst kv) "SMTP_PASSWORD")) full_environ;
     utcnow := end_;
     http_get := scenario_tracker;
     smtp_do := fun _ _ => None |}.

Definition dry_run_args : Namespace :=
  {| days := 7; filters := ""; dry_run := true |}.

(** A dry run that looks 800000 days back. *)
Definition far_back_args : Namespace :=
  {| days := 800000; filters := ""; dry_run := true |}.

Definition server_error (body : string) : http_response :=
  {| status_code := 500; text := body; json := None |}.

(** A tracker that answers the first request of a run and times out on
    the second. *)
Definition failing_on_second : world :=
  {| environ := [];
     utcnow := end_;
     http_get := fun t _ =>
       match http_requests t with
       | [] => HttpResponse first_page
       | _ :: _ => HttpRaises (RequestException "read timed out")
       end;
     smtp_do := fun _ _ => None |}.

Definition send_args : Namespace :=
  {| days := 7; filters := ""; dry_run := false |}.

Definition smtp : SmtpConfig :=
  {| smtp_host := "mail.example.org";
     smtp_port := 587;
     smtp_username := "reports";
     smtp_password := "secret";
     smtp_sender := "reports@example.org";
     smtp_recipient := "lead@example.org";
     smtp_use_tls := true |}.

(** The environment with one variable set anew. *)
Definition environ_with (name value : string) : dict string :=
  dict_set full_environ name value.

(** The scenario with a port that is no number. *)
Definition bad_port : world :=
  {| environ := environ_with "SMTP_PORT" "smtp";
     utcnow := end_;
     http_get := scenario_tracker;
     smtp_do := fun _ _ => None |}.

(** The scenario with a mail server that rejects the login. *)
Definition rejecting_login : world :=
  {| environ := full_environ;
     utcnow := end_;
     http_get := scenario_tracker;
     smtp_do := fun _ c =>
       match c with
       | SmtpLogin _ _ => Some (SMTPException "535 authentication failed")
       | _ => None
       end |}.

(** The scenario with a mail server that cannot be reached. *)
Definition mail_down : world :=
  {| environ := full_environ;
     utcnow := end_;
     http_get := scenario_tracker;
     smtp_do := fun _ c =>
       match c with
       | SmtpConnect _ _ _ => Some (OtherException "connection refused")
       | _ => None
       end |}.

(** The scenario with a tracker that cannot be reached. *)
Definition tracker_down : world :=
  {| environ := full_environ;
     utcnow := end_;
     http_get := fun _ _ => HttpRaises (RequestException "connection refused");
     smtp_do := fun _ _ => None |}.

(** A 200 response whose second issue has no key. *)
Definition keyless : http_response :=
  {| status_code := 200;
     text := "";
     json := Some (PDict [("total", PInt 2);
                          ("issues", PList [issue "SCAL-123";
                                            PDict [("id", PStr "10001")]])]) |}.

End Sample.

(* ================================================================== *)
(** * Part II: properties *)
(* ================================================================== *)

(** ** Text *)

Module TextFacts.
Import Text.

Lemma app_nil_r (s : string) : s ++ "" = s.
Proof. induction s; simpl; congruence. Qed.

Lemma app_assoc (a b c : string) : (a ++ b) ++ c = a ++ b ++ c.
Proof. induction a; simpl; congruence. Qed.

Lemma app_inv_head (a x y : string) : a ++ x = a ++ y -> x = y.
Proof. induction a; simpl; intros H; [assumption | injection H; auto]. Qed.

Lemma prefix_app (p b : string) : prefix p (p ++ b) = true.
Proof.
  induction p as [|c p IH]; simpl.
  - destruct b; reflexivity.
  - destruct (ascii_dec c c); [assumption | congruence].
Qed.

Lemma prefix_inv (p s : string) : prefix p s = true -> exists b, s = p ++ b.
Proof.
  revert s; induction p as [|c p IH]; intros s H.
  - exists s; reflexivity.
  - destruct s as [|c' s]; simpl in H; [discriminate|].
    destruct (ascii_dec c c'); [subst c'|discriminate].
    destruct (IH _ H) as [b ->]. exists b; reflexivity.
Qed.

Lemma contains_prefix (p s : string) : prefix p s = true -> contains p s = true.
Proof. intros H; destruct s; cbn [contains]; rewrite H; reflexivity. Qed.

Lemma contains_skip (c : ascii) (p s : string) :
  contains p s = true -> contains p (String c s) = true.
Proof. intros H; cbn [contains]; rewrite H; apply orb_true_r. Qed.

(** The executable test decides [Substring]. *)
Lemma contains_complete (p s : string) : Substring p s -> contains p s = true.
Proof.
  intros (a & b & ->). induction a as [|c a IH]; simpl append.
  - apply contains_prefix, prefix_app.
  - apply contains_skip, IH.
Qed.

Lemma contains_sound (p s : string) : contains p s = true -> Substring p s.
Proof.
  induction s as [|c s IH]; cbn [contains]; intros H.
  - rewrite orb_false_r in H. destruct (prefix_inv _ _ H) as [b Hb].
    exists "", b; exact Hb.
  - apply orb_true_iff in H as [H|H].
    + destruct (prefix_inv _ _ H) as [b Hb]. exists "", b; exact Hb.
    + destruct (IH H) as (a & b & ->). exists (String c a), b; reflexivity.
Qed.

Lemma Substring_intro (p s a b : string) : s = a ++ p ++ b -> Substring p s.
Proof. intros ->; exists a, b; reflexivity. Qed.

End TextFacts.

(** Brings both sides of an equation between concatenations to the same
    right-nested shape. *)
Ltac text_eq :=
  cbv beta zeta; repeat rewrite TextFacts.app_assoc; simpl; reflexivity.

(** ** [build_jql] *)

Section BuildJql.
Variables (k : string) (start end_ : datetime) (f : string).

Let s := Calendar.strftime_Ymd start.
Let e := Calendar.strftime_Ymd end_.
Let qs := build_jql k start end_ f.

Lemma build_jql_labels : map fst qs = labels.
Proof. reflexivity. Qed.

Lemma query_created :
  query_of qs "created"
  = "project = " ++ k ++ " AND created >= '" ++ s ++ "' AND created <= '" ++ e ++ "'"
      ++ filter_suffix f.
Proof.
  unfold qs, build_jql, query_of, filter_suffix; cbn [dict_get String.eqb Ascii.eqb Bool.eqb].
  destruct (Text.truthy f); [| rewrite TextFacts.app_nil_r]; text_eq.
Qed.

Lemma query_resolved :
  query_of qs "resolved"
  = "project = " ++ k ++ " AND resolved >= '" ++ s ++ "' AND resolved <= '" ++ e ++ "'"
      ++ filter_suffix f.
Proof.
  unfold qs, build_jql, query_of, filter_suffix; cbn [dict_get String.eqb Ascii.eqb Bool.eqb].
  destruct (Text.truthy f); [| rewrite TextFacts.app_nil_r]; text_eq.
Qed.

Lemma query_open :
  query_of qs "open"
  = "project = " ++ k ++ " AND statusCategory != Done AND updated >= '" ++ s ++ "'"
      ++ filter_suffix f.
Proof.
  unfold qs, build_jql, query_of, filter_suffix; cbn [dict_get String.eqb Ascii.eqb Bool.eqb].
  destruct (Text.truthy f); [| rewrite TextFacts.app_nil_r]; text_eq.
Qed.

End BuildJql.

(** C1 (as amended). For every project key, window and filter, the
    [created] query bounds the field [created] by the window's start date
    from below and by its end date from above, the [resolved] query does
    the same for [resolved], and the [open] query bounds [updated] by the
    start date from below only: it is the project test, the status test and
    that one lower bound, followed by the filter, and it is the same query
    whatever the end of the window. All three contain the project key.
    Nothing is asked of the window, so this holds in particular when
    start <= end. *)
Theorem build_jql_date_bounds (k : string) (start end_ : datetime) (f : string) :
  let qs := build_jql k start end_ f in
  let s := Calendar.strftime_Ymd start in
  let e := Calendar.strftime_Ymd end_ in
  (Text.Substring ("project = " ++ k) (query_of qs "created")
   /\ Text.Substring ("created >= '" ++ s ++ "' AND created <= '" ++ e ++ "'")
                     (query_of qs "created"))
  /\ (Text.Substring ("project = " ++ k) (query_of qs "resolved")
      /\ Text.Substring ("resolved >= '" ++ s ++ "' AND resolved <= '" ++ e ++ "'")
                        (query_of qs "resolved"))
  /\ (Text.Substring ("project = " ++ k) (query_of qs "open")
      /\ Text.Substring ("updated >= '" ++ s ++ "'") (query_of qs "open")
      /\ query_of qs "open"
         = "project = " ++ k ++ " AND statusCategory != Done AND updated >= '" ++ s ++ "'"
             ++ filter_suffix f
      /\ forall end' : datetime,
           query_of (build_jql k start end' f) "open" = query_of qs "open").
Proof.
  intros qs s e. unfold qs, s, e.
  assert (I : forall end' : datetime,
             query_of (build_jql k start end' f) "open"
             = query_of (build_jql k start end_ f) "open")
    by (intros end'; rewrite !query_open; reflexivity).
  rewrite query_created, query_resolved, query_open in *.
  repeat split; try exact I.
  - eapply TextFacts.Substring_intro with (a := ""); text_eq.
  - eapply TextFacts.Substring_intro
      with (a := "project = " ++ k ++ " AND ") (b := filter_suffix f); text_eq.
  - eapply TextFacts.Substring_intro with (a := ""); text_eq.
  - eapply TextFacts.Substring_intro
      with (a := "project = " ++ k ++ " AND ") (b := filter_suffix f); text_eq.
  - eapply TextFacts.Substring_intro with (a := ""); text_eq.
  - eapply TextFacts.Substring_intro
      with (a := "project = " ++ k ++ " AND statusCategory != Done AND ")
           (b := filter_suffix f); text_eq.
Qed.

(** C1 as stated fails: for the valid window 2024-06-03 .. 2024-06-10 of
    project SCAL the [open] query does not mention the end date at all. *)
Lemma open_query_lacks_end_date :
  Calendar.le Sample.start Sample.end_ = true
  /\ query_of (build_jql "SCAL" Sample.start Sample.end_ "") "open"
     = "project = SCAL AND statusCategory != Done AND updated >= '2024-06-03'"
  /\ ~ Text.Substring (Calendar.strftime_Ymd Sample.end_)
         (query_of (build_jql "SCAL" Sample.start Sample.end_ "") "open").
Proof.
  split; [reflexivity | split; [reflexivity |]].
  intros H. apply TextFacts.contains_complete in H.
  vm_compute in H. discriminate H.
Qed.

(** C6. A non-empty filter is appended verbatim, behind [" AND "], to each
    of the three clauses that the empty filter gives; with the empty filter
    the clauses are the bare ones, with nothing appended; and the result is
    a function of the project key, the window and the filter alone. *)
Theorem build_jql_filter (k : string) (start end_ : datetime) (f : string) :
  let s := Calendar.strftime_Ymd start in
  let e := Calendar.strftime_Ymd end_ in
  build_jql k start end_ ""
  = [ ("created",
       "project = " ++ k ++ " AND created >= '" ++ s ++ "' AND created <= '" ++ e ++ "'");
      ("resolved",
       "project = " ++ k ++ " AND resolved >= '" ++ s ++ "' AND resolved <= '" ++ e ++ "'");
      ("open",
       "project = " ++ k ++ " AND statusCategory != Done AND updated >= '" ++ s ++ "'") ]
  /\ (f <> "" ->
      build_jql k start end_ f
      = map (fun lq : string * string => (fst lq, snd lq ++ " AND " ++ f))
            (build_jql k start end_ "")
      /\ Forall (fun lq : string * string =>
                   Text.EndsWith (" AND " ++ f) (snd lq)
                   /\ Text.Substring f (snd lq))
                (build_jql k start end_ f))
  /\ (forall k' start' end' f',
        k' = k -> start' = start -> end' = end_ -> f' = f ->
        build_jql k' start' end' f' = build_jql k start end_ f).
Proof.
  intros s e. split; [| split].
  - unfold build_jql, s, e; cbn [Text.truthy]. reflexivity.
  - intros Hf.
    assert (Ht : Text.truthy f = true) by (destruct f; [congruence | reflexivity]).
    split.
    + unfold build_jql; rewrite Ht; cbn [Text.truthy map fst snd]. reflexivity.
    + unfold build_jql; rewrite Ht.
      repeat constructor; cbn [snd];
        try (eexists; reflexivity);
        (eapply TextFacts.Substring_intro with (b := ""); 
         rewrite TextFacts.app_nil_r; rewrite <- TextFacts.app_assoc; reflexivity).
  - intros; subst; reflexivity.
Qed.

Lemma build_jql_filter_witness :
  "priority = High" <> ""
  /\ build_jql "SCAL" Sample.start Sample.end_ "priority = High"
     = [ ("created",
          "project = SCAL AND created >= '2024-06-03' AND created <= '2024-06-10' AND priority = High");
         ("resolved",
          "project = SCAL AND resolved >= '2024-06-03' AND resolved <= '2024-06-10' AND priority = High");
         ("open",
          "project = SCAL AND statusCategory != Done AND updated >= '2024-06-03' AND priority = High") ].
Proof.
  split; [discriminate |].
  destruct (build_jql_filter "SCAL" Sample.start Sample.end_ "priority = High")
    as (_ & H & _).
  destruct (H ltac:(discriminate)) as [-> _]. reflexivity.
Defined.

(** ** Traces *)

Section TraceFacts.

Lemma http_requests_app (a b : trace) :
  http_requests (a ++ b)%list = (http_requests a ++ http_requests b)%list.
Proof. apply flat_map_app. Qed.

Lemma printed_app (a b : trace) : printed (a ++ b)%list = (printed a ++ printed b)%list.
Proof. apply flat_map_app. Qed.

Lemma smtp_commands_app (a b : trace) :
  smtp_commands (a ++ b)%list = (smtp_commands a ++ smtp_commands b)%list.
Proof. apply flat_map_app. Qed.

End TraceFacts.

Create Rewrite HintDb trace.
#[local] Hint Rewrite http_requests_app printed_app smtp_commands_app
  List.app_nil_r : trace.
#[local] Hint Rewrite <- List.app_assoc : trace.

(** ** [call_jira_api] *)

Section CallJiraApi.
Variables (w : world) (config : JiraConfig) (jql : string) (t : trace).

Let req := search_request config jql.

(** The four ways a call can go. *)
Lemma call_jira_api_cases :
  call_jira_api w config jql t =
  match http_get w t req with
  | HttpRaises exc =>
      (Raise exc,
       if is_RequestException exc
       then (t ++ [EvHttpGet req;
                   EvLog ERROR ("Failed to call Jira API: " ++ exn_str exc)])%list
       else (t ++ [EvHttpGet req])%list)
  | HttpResponse r =>
      if status_code r =? 200
      then (parse_search r, (t ++ [EvHttpGet req])%list)
      else (Raise (RuntimeError ("Jira API error " ++ Text.of_Z (status_code r))),
            (t ++ [EvHttpGet req;
                   EvLog ERROR ("Jira API returned " ++ Text.of_Z (status_code r)
                                  ++ ": " ++ text r)])%list)
  end.
Proof.
  unfold call_jira_api, try_catch, requests_get, req.
  destruct (http_get w t (search_request config jql)) as [r | exc].
  - destruct (status_code r =? 200); cbn; [reflexivity |].
    rewrite <- List.app_assoc; reflexivity.
  - destruct (is_RequestException exc); cbn; [| reflexivity].
    rewrite <- List.app_assoc; reflexivity.
Qed.

(** Whatever the outcome, a call sends exactly one request, prints
    nothing and does not touch the mail server. *)
Lemma call_jira_api_effects :
  let t' := snd (call_jira_api w config jql t) in
  http_requests t' = (http_requests t ++ [req])%list
  /\ printed t' = printed t
  /\ smtp_commands t' = smtp_commands t.
Proof.
  rewrite call_jira_api_cases.
  destruct (http_get w t req) as [r | exc];
    [destruct (status_code r =? 200) | destruct (is_RequestException exc)];
    cbn [snd]; autorewrite with trace; cbn;
    autorewrite with trace; auto.
Qed.

End CallJiraApi.

(** C3 (as amended). When the tracker does not answer with status 200, the
    call never returns a result. A transport failure is raised again as it
    is. A non-200 response raises a [RuntimeError] whose message ends with
    the status code; the response body goes to the error log and is not
    part of the failure. Every request carries the timeout 30. *)
Theorem call_jira_api_failure (w : world) (config : JiraConfig) (jql : string)
    (t : trace) (o : http_outcome) :
  http_get w t (search_request config jql) = o ->
  is_success o = false ->
  timeout (search_request config jql) = 30
  /\ (forall x t', call_jira_api w config jql t <> (Ok x, t'))
  /\ match o with
     | HttpRaises exc => fst (call_jira_api w config jql t) = Raise exc
     | HttpResponse r =>
         call_jira_api w config jql t
         = (Raise (RuntimeError ("Jira API error " ++ Text.of_Z (status_code r))),
            (t ++ [EvHttpGet (search_request config jql);
                   EvLog ERROR ("Jira API returned " ++ Text.of_Z (status_code r)
                                  ++ ": " ++ text r)])%list)
     end.
Proof.
  intros Ho Hfail. rewrite call_jira_api_cases, Ho.
  split; [reflexivity |].
  destruct o as [r | exc]; cbn in Hfail.
  - rewrite Hfail. split; [intros x t'; discriminate | reflexivity].
  - split; [intros x t'; discriminate | reflexivity].
Qed.

Lemma call_jira_api_failure_witness :
  call_jira_api (Sample.answering (HttpResponse (Sample.server_error "boom")))
                Sample.config "project = SCAL" []
  = (Raise (RuntimeError "Jira API error 500"),
     [EvHttpGet (search_request Sample.config "project = SCAL");
      EvLog ERROR "Jira API returned 500: boom"]).
Proof.
  exact (proj2 (proj2
    (call_jira_api_failure
       (Sample.answering (HttpResponse (Sample.server_error "boom")))
       Sample.config "project = SCAL" [] _ eq_refl eq_refl))).
Defined.

(** C3 as stated fails: two 500 responses with different bodies raise one
    and the same exception, so no body can be read back from it. *)
Lemma api_error_lacks_body : ~ api_error_carries_body.
Proof.
  intros [body_of H].
  destruct (H (Sample.answering (HttpResponse (Sample.server_error "first")))
              Sample.config "" [] _ eq_refl ltac:(discriminate))
    as (e1 & t1 & E1 & B1).
  destruct (H (Sample.answering (HttpResponse (Sample.server_error "second")))
              Sample.config "" [] _ eq_refl ltac:(discriminate))
    as (e2 & t2 & E2 & B2).
  vm_compute in E1, E2.
  injection E1 as <- _. injection E2 as <- _.
  rewrite B1 in B2. discriminate B2.
Qed.

(** ** Decoding a page *)

Section ParseSearch.

Lemma map_result_length {A B} (f : A -> result B) (xs : list A) (ys : list B) :
  map_result f xs = Ok ys -> List.length ys = List.length xs.
Proof.
  revert ys; induction xs as [|x xs IH]; intros ys; cbn.
  - intros [= <-]; reflexivity.
  - destruct (f x) as [y|]; cbn; [| discriminate].
    destruct (map_result f xs) as [ys'|]; cbn; [| discriminate].
    intros [= <-]; cbn; f_equal; apply IH; reflexivity.
Qed.

Lemma map_result_keys (issues keys : list pyval) :
  Forall2 has_key issues keys ->
  map_result (fun issue => py_getitem issue "key") issues = Ok keys.
Proof.
  induction 1 as [| issue k issues keys (fields & -> & Hk) _ IH]; cbn.
  - reflexivity.
  - rewrite Hk; cbn. rewrite IH; reflexivity.
Qed.

(** A decoded page, taken apart. *)
Lemma parse_search_inv (r : http_response) (total : pyval) (keys : list pyval) :
  parse_search r = Ok (total, keys) ->
  exists d issues items,
    json r = Some (PDict d)
    /\ issues = match dict_get d "issues" with Some v => v | None => PList [] end
    /\ py_iter issues = Ok items
    /\ map_result (fun issue => py_getitem issue "key") items = Ok keys
    /\ total = match dict_get d "total" with Some v => v | None => py_len keys end.
Proof.
  unfold parse_search, response_json.
  destruct (json r) as [data|]; cbn; [| discriminate].
  destruct data as [ | | | | | |d]; cbn; try discriminate.
  destruct (py_iter _) as [items|] eqn:Hit; cbn; [| discriminate].
  destruct (map_result _ items) as [ks|] eqn:Hks; cbn; [| discriminate].
  intros [= <- <-]. exists d. do 2 eexists. repeat split; eassumption.
Qed.

End ParseSearch.



(** C4 (as amended). The call asks the tracker for at most 1000 results;
    whenever it returns, it returns exactly one key per issue of the 200
    response it got, without cutting the list, so the keys number at most
    1000 whenever the response holds at most 1000 issues; the total is the
    response's own [total] when it has one, whatever its size. *)
Theorem call_jira_api_page_size (w : world) (config : JiraConfig) (jql : string)
    (t : trace) (total : pyval) (keys : list pyval) (t' : trace) :
  call_jira_api w config jql t = (Ok (total, keys), t') ->
  dict_get (params (search_request config jql)) "maxResults" = Some (PInt MAX_RESULTS)
  /\ MAX_RESULTS = 1000
  /\ exists r d items,
       http_get w t (search_request config jql) = HttpResponse r
       /\ status_code r = 200
       /\ json r = Some (PDict d)
       /\ py_iter (match dict_get d "issues" with Some v => v | None => PList [] end)
          = Ok items
       /\ List.length keys = List.length items
       /\ (Z.of_nat (List.length items) <= MAX_RESULTS ->
           Z.of_nat (List.length keys) <= MAX_RESULTS)
       /\ total = match dict_get d "total" with Some v => v | None => py_len keys end.
Proof.
  intros H. split; [reflexivity | split; [reflexivity |]].
  rewrite call_jira_api_cases in H.
  destruct (http_get w t (search_request config jql)) as [r | exc];
    [| discriminate].
  destruct (status_code r =? 200) eqn:Hst; [| discriminate].
  injection H as Hp _.
  destruct (parse_search_inv _ _ _ Hp) as (d & issues & items & Hj & -> & Hit & Hks & Ht).
  exists r, d, items. apply Z.eqb_eq in Hst.
  pose proof (map_result_length _ _ _ Hks) as Hlen.
  repeat split; try assumption. rewrite Hlen; auto.
Qed.

Lemma call_jira_api_page_size_witness :
  exists r d items,
    http_get (Sample.answering (HttpResponse Sample.first_page)) []
             (search_request Sample.config "q") = HttpResponse r
    /\ status_code r = 200
    /\ json r = Some (PDict d)
    /\ py_iter (match dict_get d "issues" with Some v => v | None => PList [] end)
       = Ok items
    /\ List.length [PStr "SCAL-123"; PStr "SCAL-118"] = List.length items
    /\ (Z.of_nat (List.length items) <= MAX_RESULTS ->
        Z.of_nat (List.length [PStr "SCAL-123"; PStr "SCAL-118"]) <= MAX_RESULTS)
    /\ PInt 5000
       = match dict_get d "total" with
         | Some v => v
         | None => py_len [PStr "SCAL-123"; PStr "SCAL-118"]
         end.
Proof.
  exact (proj2 (proj2
    (call_jira_api_page_size
       (Sample.answering (HttpResponse Sample.first_page)) Sample.config "q" []
       (PInt 5000) [PStr "SCAL-123"; PStr "SCAL-118"] _ eq_refl))).
Defined.

(** C4 as stated fails: a 200 response with 1001 issues yields 1001 keys. *)
Lemma oversized_page_exceeds_cap :
  status_code Sample.oversized = 200
  /\ exists total keys t',
       call_jira_api (Sample.answering (HttpResponse Sample.oversized))
                     Sample.config "project = SCAL" []
       = (Ok (total, keys), t')
       /\ List.length keys = 1001%nat
       /\ ~ (Z.of_nat (List.length keys) <= 1000).
Proof.
  split; [reflexivity |].
  exists (PInt 1001), (repeat (PStr "SCAL-1") 1001),
         [EvHttpGet (search_request Sample.config "project = SCAL")].
  split; [vm_compute; reflexivity |].
  rewrite repeat_length. split; [reflexivity | lia].
Qed.

(** ** [summarize_issues] *)

Section SummarizeIssues.
Variables (w : world) (config : JiraConfig) (start end_ : datetime) (f : string).

Let query := query_for config start end_ f.

Lemma search_request_inj (q1 q2 : string) :
  search_request config q1 = search_request config q2 -> q1 = q2.
Proof. unfold search_request; intros [= H]; exact H. Qed.

Lemma open_query_distinct : query "open" <> query "created" /\ query "open" <> query "resolved".
Proof.
  unfold query, query_for. rewrite query_open, query_created, query_resolved.
  split; intros H;
    apply (TextFacts.app_inv_head "project = ") in H;
    apply TextFacts.app_inv_head in H; discriminate H.
Qed.

(** The loop, spelled out: three calls one after the other, each on the
    trace its predecessor left behind, the first failure ending the run. *)
Lemma summarize_issues_cases (t0 : trace) :
  summarize_issues w config start end_ f t0 =
  match call_jira_api w config (query "created") t0 with
  | (Raise e1, t1) => (Raise e1, t1)
  | (Ok (n1, k1), t1) =>
      match call_jira_api w config (query "resolved")
              (t1 ++ [count_log "created" n1])%list with
      | (Raise e2, t2) => (Raise e2, t2)
      | (Ok (n2, k2), t2) =>
          match call_jira_api w config (query "open")
                  (t2 ++ [count_log "resolved" n2])%list with
          | (Raise e3, t3) => (Raise e3, t3)
          | (Ok (n3, k3), t3) =>
              (Ok {| created_count := n1;
                     resolved_count := n2;
                     open_count := n3;
                     issue_keys := [("created", k1); ("resolved", k2); ("open", k3)] |},
               (t3 ++ [count_log "open" n3])%list)
          end
      end
  end.
Proof.
  unfold summarize_issues.
  change (build_jql (project_key config) start end_ f)
    with [("created", query "created"); ("resolved", query "resolved");
          ("open", query "open")].
  generalize (query "created") (query "resolved") (query "open"); intros qc qr qo.
  unfold for_each, summarize_step, bind, ret, log, emit, count_log.
  destruct (call_jira_api w config qc t0) as [[[n1 k1] | e1] t1]; [| reflexivity].
  destruct (call_jira_api w config qr _) as [[[n2 k2] | e2] t2]; [| reflexivity].
  destruct (call_jira_api w config qo _) as [[[n3 k3] | e3] t3]; reflexivity.
Qed.

End SummarizeIssues.

(** C2. The run of [summarize_issues] is decided by its calls in the order
    created, resolved, open, each made after its predecessor returned.
    When the resolved call raises, [summarize_issues] raises that same
    exception and stops where the call stopped: no summary is returned,
    the requests sent are the created and the resolved one, and the open
    request is not among them. A failing created call likewise ends the run
    after one request, and the open request is sent only after two
    successes. *)
Theorem summarize_issues_fail_fast (w : world) (config : JiraConfig)
    (start end_ : datetime) (f : string) (t0 : trace) :
  let rq := request_for config start end_ f in
  let call label t := call_jira_api w config (query_for config start end_ f label) t in
  let run := summarize_issues w config start end_ f t0 in
  match call "created" t0 with
  | (Raise e1, t1) =>
      run = (Raise e1, t1)
      /\ http_requests t1 = (http_requests t0 ++ [rq "created"])%list
  | (Ok (n1, k1), t1) =>
      match call "resolved" (t1 ++ [count_log "created" n1])%list with
      | (Raise e2, t2) =>
          run = (Raise e2, t2)
          /\ http_requests t2 = (http_requests t0 ++ [rq "created"; rq "resolved"])%list
          /\ ~ In (rq "open") [rq "created"; rq "resolved"]
      | (Ok (n2, k2), t2) =>
          match call "open" (t2 ++ [count_log "resolved" n2])%list with
          | (r3, t3) =>
              http_requests t3
              = (http_requests t0 ++ [rq "created"; rq "resolved"; rq "open"])%list
              /\ run = match r3 with
                       | Raise e3 => (Raise e3, t3)
                       | Ok (n3, k3) =>
                           (Ok {| created_count := n1;
                                  resolved_count := n2;
                                  open_count := n3;
                                  issue_keys :=
                                    [("created", k1); ("resolved", k2); ("open", k3)] |},
                            (t3 ++ [count_log "open" n3])%list)
                       end
          end
      end
  end.
Proof.
  intros rq call run. unfold run. rewrite summarize_issues_cases. unfold call.
  pose proof (call_jira_api_effects w config
                (query_for config start end_ f "created") t0)
    as (R1 & _).
  destruct (call_jira_api w config _ t0) as [[[n1 k1] | e1] t1]; cbn [snd] in R1;
    [| split; [reflexivity | exact R1]].
  pose proof (call_jira_api_effects w config
                (query_for config start end_ f "resolved")
                (t1 ++ [count_log "created" n1])%list)
    as (R2 & _).
  destruct (call_jira_api w config _ (t1 ++ _)%list) as [[[n2 k2] | e2] t2];
    cbn [snd] in R2; rewrite http_requests_app, R1 in R2; cbn in R2;
    rewrite List.app_nil_r, <- List.app_assoc in R2; cbn in R2.
  - pose proof (call_jira_api_effects w config
                  (query_for config start end_ f "open")
                  (t2 ++ [count_log "resolved" n2])%list)
      as (R3 & _).
    destruct (call_jira_api w config _ (t2 ++ _)%list) as [r3 t3];
      cbn [snd] in R3; rewrite http_requests_app, R2 in R3; cbn in R3;
      rewrite List.app_nil_r, <- List.app_assoc in R3; cbn in R3.
    split; [exact R3 |]. destruct r3 as [[n3 k3] | e3]; reflexivity.
  - split; [reflexivity | split; [exact R2 |]].
    destruct (open_query_distinct config start end_ f) as [Dc Dr].
    unfold rq, request_for. intros [H | [H | []]];
      apply search_request_inj in H; [apply Dc | apply Dr]; symmetry; exact H.
Qed.

(** A run against a tracker that times out on the second request. *)
Example summarize_issues_timeout_on_resolved :
  summarize_issues Sample.failing_on_second Sample.config Sample.start Sample.end_ "" []
  = (Raise (RequestException "read timed out"),
     [EvHttpGet (request_for Sample.config Sample.start Sample.end_ "" "created");
      count_log "created" (PInt 5000);
      EvHttpGet (request_for Sample.config Sample.start Sample.end_ "" "resolved");
      EvLog ERROR "Failed to call Jira API: read timed out"]).
Proof. vm_compute. reflexivity. Qed.

(** ** Reading links *)

Module MarkupFacts.
Import Markup PyStr.

Lemma strip_prefix_app (p s : string) : strip_prefix p (p ++ s) = Some s.
Proof.
  induction p as [|c p IH]; cbn; [destruct s; reflexivity |].
  rewrite Ascii.eqb_refl; exact IH.
Qed.

Lemma split_at_app (c : ascii) (a b : string) :
  has_char c a = false -> split_at c (a ++ String c b) = Some (a, b).
Proof.
  induction a as [|c' a IH]; cbn; intros H.
  - rewrite Ascii.eqb_refl; reflexivity.
  - apply orb_false_iff in H as [Hc Ha].
    rewrite Ascii.eqb_sym, Hc, (IH Ha); reflexivity.
Qed.

Lemma anchor_at_other (c : ascii) (s : string) :
  Ascii.eqb c "<" = false -> anchor_at (String c s) = None.
Proof.
  intros H. unfold anchor_at; cbn [strip_prefix].
  rewrite Ascii.eqb_sym, H; reflexivity.
Qed.

Lemma anchor_at_tag (c : ascii) (s : string) :
  Ascii.eqb c "a" = false -> anchor_at (String "<" (String c s)) = None.
Proof.
  intros H. unfold anchor_at; cbn [strip_prefix].
  rewrite Ascii.eqb_refl, Ascii.eqb_sym, H; reflexivity.
Qed.

Lemma has_char_app (c : ascii) (a b : string) :
  has_char c (a ++ b) = has_char c a || has_char c b.
Proof.
  induction a as [|c' a IH]; cbn; [reflexivity |].
  rewrite IH; apply orb_assoc.
Qed.

Lemma inert_app (a b : string) :
  inert a = true -> inert b = true -> inert (a ++ b) = true.
Proof.
  induction a as [|c a IH]; cbn [inert append]; intros Ha Hb; [exact Hb |].
  apply andb_true_iff in Ha as [Hc Ha].
  rewrite (IH Ha Hb), andb_true_r.
  destruct (Ascii.eqb c "<"); [| reflexivity].
  destruct a; [discriminate | exact Hc].
Qed.

Lemma inert_no_lt (s : string) : has_char "<" s = false -> inert s = true.
Proof.
  induction s as [|c s IH]; cbn [inert has_char]; intros H; [reflexivity |].
  apply orb_false_iff in H as [Hc Hs].
  rewrite Ascii.eqb_sym, Hc, (IH Hs); reflexivity.
Qed.

Lemma links_inert (s t : string) : inert s = true -> links (s ++ t) = links t.
Proof.
  induction s as [|c s IH]; cbn [inert append]; intros H; [reflexivity |].
  apply andb_true_iff in H as [Hc Hs].
  cbn [links]. rewrite (IH Hs).
  destruct (Ascii.eqb c "<") eqn:E.
  - apply Ascii.eqb_eq in E; subst c.
    destruct s as [|c2 s]; [discriminate |]. cbn [append].
    rewrite anchor_at_tag; [reflexivity |].
    apply negb_true_iff; exact Hc.
  - rewrite anchor_at_other by exact E; reflexivity.
Qed.

Lemma emits_inert (s : string) : inert s = true -> emits s [].
Proof. intros H t; apply links_inert, H. Qed.

Lemma emits_app (a b : string) (la lb : list (string * string)) :
  emits a la -> emits b lb -> emits (a ++ b) (la ++ lb).
Proof.
  intros Ha Hb t. rewrite TextFacts.app_assoc, Ha, Hb.
  apply List.app_assoc.
Qed.

Lemma emits_inert_l (a b : string) (lb : list (string * string)) :
  inert a = true -> emits b lb -> emits (a ++ b) lb.
Proof. intros Ha Hb. apply (emits_app a b [] lb); [apply emits_inert, Ha | exact Hb]. Qed.

Lemma emits_inert_r (a b : string) (la : list (string * string)) :
  emits a la -> inert b = true -> emits (a ++ b) la.
Proof.
  intros Ha Hb. rewrite <- (List.app_nil_r la).
  apply emits_app; [exact Ha | apply emits_inert, Hb].
Qed.

Lemma anchor_at_anchor (href txt t : string) :
  has_char "'" href = false -> has_char "<" txt = false ->
  anchor_at ("<a href='" ++ href ++ "'>" ++ txt ++ "</a>" ++ t) = Some (href, txt).
Proof.
  intros Hh Ht. unfold anchor_at.
  rewrite strip_prefix_app.
  change ("'>" ++ txt ++ "</a>" ++ t) with (String "'" (">" ++ txt ++ "</a>" ++ t)).
  rewrite (split_at_app _ _ _ Hh), strip_prefix_app.
  change ("</a>" ++ t) with (String "<" ("/a>" ++ t)).
  rewrite (split_at_app _ _ _ Ht), strip_prefix_app. reflexivity.
Qed.

Lemma plain_inv (s : string) :
  plain s = true ->
  has_char "'" s = false /\ has_char "<" s = false /\ has_char "&" s = false.
Proof.
  unfold plain. intros H.
  apply andb_true_iff in H as [H Ha]. apply andb_true_iff in H as [Hq Hl].
  apply negb_true_iff in Hq, Hl, Ha. auto.
Qed.

Lemma plain_app (a b : string) :
  plain a = true -> plain b = true -> plain (a ++ b) = true.
Proof.
  intros Ha Hb.
  destruct (plain_inv _ Ha) as (A1 & A2 & A3). destruct (plain_inv _ Hb) as (B1 & B2 & B3).
  unfold plain. rewrite !has_char_app, A1, A2, A3, B1, B2, B3. reflexivity.
Qed.

Lemma emits_anchor (href txt : string) :
  plain href = true -> has_char "<" txt = false ->
  emits ("<a href='" ++ href ++ "'>" ++ txt ++ "</a>") [(href, txt)].
Proof.
  intros Hp Ht t. destruct (plain_inv _ Hp) as (Hq & Hl & _).
  repeat rewrite TextFacts.app_assoc.
  change ("<a href='" ++ href ++ "'>" ++ txt ++ "</a>" ++ t)
    with (String "<" ("a href='" ++ href ++ "'>" ++ txt ++ "</a>" ++ t)).
  cbn [links].
  change (String "<" ("a href='" ++ href ++ "'>" ++ txt ++ "</a>" ++ t))
    with ("<a href='" ++ href ++ "'>" ++ txt ++ "</a>" ++ t).
  rewrite (anchor_at_anchor _ _ _ Hq Ht). cbn [app]. f_equal.
  replace ("a href='" ++ href ++ "'>" ++ txt ++ "</a>" ++ t)
    with (("a href='" ++ href ++ "'>" ++ txt ++ "</a>") ++ t)
    by (repeat rewrite TextFacts.app_assoc; reflexivity).
  apply links_inert.
  repeat apply inert_app; try reflexivity; apply inert_no_lt; assumption.
Qed.

Lemma emits_concat_all (xs : list string) (lss : list (list (string * string))) :
  Forall2 emits xs lss -> emits (Text.concat_all xs) (List.concat lss).
Proof.
  induction 1 as [| x ls xs lss Hx _ IH]; cbn.
  - intros t; reflexivity.
  - apply emits_app; assumption.
Qed.

Lemma emits_join (sep : string) (xs : list string)
    (lss : list (list (string * string))) :
  emits sep [] -> Forall2 emits xs lss ->
  emits (Text.join sep xs) (List.concat lss).
Proof.
  intros Hsep. induction 1 as [| x ls xs lss Hx Hxs IH]; cbn.
  - intros t; reflexivity.
  - destruct Hxs as [| x' ls' xs' lss' Hx' Hxs'].
    + cbn. rewrite List.app_nil_r. exact Hx.
    + apply emits_app; [exact Hx |].
      change (List.concat (ls' :: lss')) with (([] : list (string * string)) ++ List.concat (ls' :: lss'))%list.
      apply emits_app; [exact Hsep | exact IH].
Qed.

Lemma case_keeps_lt (c : ascii) :
  Ascii.eqb "<" (Text.to_upper c) = Ascii.eqb "<" c
  /\ Ascii.eqb "<" (Text.to_lower c) = Ascii.eqb "<" c.
Proof. destruct c as [[] [] [] [] [] [] [] []]; split; reflexivity. Qed.

Lemma title_from_no_lt (prev : bool) (s : string) :
  has_char "<" (Text.title_from prev s) = has_char "<" s.
Proof.
  revert prev; induction s as [|c s IH]; intros prev;
    cbn [Text.title_from has_char]; [reflexivity |].
  rewrite IH. destruct (case_keeps_lt c) as [U L].
  destruct prev; [rewrite L | rewrite U]; reflexivity.
Qed.

End MarkupFacts.

(** ** [build_email_body] *)

Section BuildEmailBody.
Import Markup PyStr MarkupFacts.
Variables (summary : JiraIssueSummary) (config : JiraConfig).

(** The loop appends, label after label, to the seven opening lines. *)
Lemma body_lines_eq :
  body_lines summary config
  = (header_lines summary ++ flat_map (label_lines config) (issue_keys summary))%list.
Proof.
  unfold body_lines.
  generalize (header_lines summary) as acc.
  induction (issue_keys summary) as [|item items IH]; intros acc; cbn.
  - symmetry; apply List.app_nil_r.
  - rewrite IH, <- List.app_assoc; reflexivity.
Qed.

Lemma link_item_emits (key : pyval) :
  plain (base_url config) = true -> plain (str key) = true ->
  emits (link_item config key)
        [(base_url config ++ "/browse/" ++ str key, str key)].
Proof.
  intros Hb Hk. unfold link_item.
  change ("<li><a href='" ++ base_url config ++ "/browse/" ++ str key ++ "'>"
            ++ str key ++ "</a></li>")
    with ("<li>" ++ "<a href='" ++ base_url config ++ "/browse/" ++ str key ++ "'>"
            ++ str key ++ "</a></li>").
  apply emits_inert_l; [reflexivity |].
  replace ("<a href='" ++ base_url config ++ "/browse/" ++ str key ++ "'>"
             ++ str key ++ "</a></li>")
    with (("<a href='" ++ (base_url config ++ "/browse/" ++ str key) ++ "'>"
             ++ str key ++ "</a>") ++ "</li>")
    by (repeat rewrite TextFacts.app_assoc; reflexivity).
  apply emits_inert_r; [| reflexivity].
  apply emits_anchor; [| apply (plain_inv _ Hk)].
  apply plain_app; [exact Hb |]. apply plain_app; [reflexivity | exact Hk].
Qed.

Lemma link_items_emit (keys : list pyval) :
  plain (base_url config) = true ->
  forallb (fun key => plain (str key)) keys = true ->
  emits (Text.concat_all (map (link_item config) keys))
        (anchors_of config (EmptyString, keys)).
Proof.
  intros Hb. unfold anchors_of; cbn [snd].
  induction keys as [|key keys IH]; cbn [map forallb Text.concat_all fold_right];
    intros Hk.
  - intros t; reflexivity.
  - apply andb_true_iff in Hk as [Hk0 Hk].
    apply (emits_app _ _ [_] _); [apply link_item_emits; assumption | apply IH, Hk].
Qed.

Lemma label_lines_emits (item : string * list pyval) :
  plain (base_url config) = true ->
  has_char "<" (fst item) = false ->
  forallb (fun key => plain (str key)) (snd item) = true ->
  Forall2 emits (label_lines config item) [[]; anchors_of config item].
Proof.
  destruct item as [label keys]; cbn [fst snd]; intros Hb Hl Hk.
  assert (Hh : emits ("<p><strong>" ++ Text.title label ++ " issues</strong>:</p>") []).
  { apply emits_inert. repeat apply inert_app; try reflexivity.
    apply inert_no_lt. unfold Text.title. rewrite title_from_no_lt. exact Hl. }
  unfold label_lines.
  destruct keys as [|key keys].
  - constructor; [exact Hh |].
    constructor; [apply emits_inert; reflexivity | constructor].
  - constructor; [exact Hh |]. constructor; [| constructor].
    apply emits_inert_l; [reflexivity |].
    apply emits_inert_r; [| reflexivity].
    apply (link_items_emit (key :: keys) Hb Hk).
Qed.

Lemma header_lines_emits :
  has_char "<" (str (created_count summary)) = false ->
  has_char "<" (str (resolved_count summary)) = false ->
  has_char "<" (str (open_count summary)) = false ->
  Forall2 emits (header_lines summary) [[]; []; []; []; []; []; []].
Proof.
  intros Hc Hr Ho. unfold header_lines.
  repeat constructor; apply emits_inert;
    repeat apply inert_app; try reflexivity; apply inert_no_lt; assumption.
Qed.

Lemma sections_emit (items : dict (list pyval)) :
  plain (base_url config) = true ->
  forallb (fun item : string * list pyval =>
             negb (has_char "<" (fst item))
             && forallb (fun key => plain (str key)) (snd item)) items = true ->
  Forall2 emits (flat_map (label_lines config) items)
          (flat_map (fun item => [[]; anchors_of config item]) items).
Proof.
  intros Hb. induction items as [|item items IH]; cbn [flat_map forallb]; intros H.
  - constructor.
  - apply andb_true_iff in H as [Hi Hrest].
    apply andb_true_iff in Hi as [Hl Hk]. apply negb_true_iff in Hl.
    apply Forall2_app; [apply label_lines_emits; assumption | apply IH, Hrest].
Qed.

Lemma concat_sections (items : dict (list pyval)) :
  List.concat (flat_map (fun item => [[]; anchors_of config item]) items)
  = flat_map (anchors_of config) items.
Proof.
  induction items as [|item items IH]; cbn; [reflexivity |].
  rewrite IH; reflexivity.
Qed.

End BuildEmailBody.

(** C9. When a label of the summary has no keys, the lines rendered for
    that label are its sub-heading followed at once by the notice
    "No issues found." and nothing else; the body is the opening lines and
    the lines of the labels in order, joined by line breaks. For the three
    labels of a report those two lines hold no list markup. The renderer is
    a function of the summary and the configuration: it takes no world and
    leaves no trace. *)
Theorem build_email_body_empty_label (summary : JiraIssueSummary)
    (config : JiraConfig) (before after : dict (list pyval)) (label : string) :
  issue_keys summary = (before ++ (label, []) :: after)%list ->
  label_lines config (label, [])
  = ["<p><strong>" ++ Text.title label ++ " issues</strong>:</p>";
     "<p>No issues found.</p>"]
  /\ build_email_body summary config
     = Text.join newline
         (header_lines summary
            ++ flat_map (label_lines config) before
            ++ label_lines config (label, [])
            ++ flat_map (label_lines config) after)%list
  /\ (In label labels ->
      forall line, In line (label_lines config (label, [])) ->
        Text.contains "<ul" line = false /\ Text.contains "<li" line = false).
Proof.
  intros H. split; [reflexivity | split].
  - unfold build_email_body. rewrite body_lines_eq, H, flat_map_app. reflexivity.
  - intros Hl line Hline. cbn in Hl, Hline.
    destruct Hl as [<- | [<- | [<- | []]]];
      destruct Hline as [<- | [<- | []]]; split; reflexivity.
Qed.

Lemma build_email_body_empty_label_witness :
  build_email_body Sample.summary Sample.config
  = Text.join newline
      (header_lines Sample.summary
         ++ flat_map (label_lines Sample.config)
              [("created", [PStr "SCAL-124"; PStr "SCAL-123"])]
         ++ label_lines Sample.config ("resolved", [])
         ++ flat_map (label_lines Sample.config)
              [("open", [PStr "SCAL-123"; PStr "SCAL-118"; PStr "SCAL-117";
                         PStr "SCAL-110"])])%list.
Proof.
  exact (proj1 (proj2
    (build_email_body_empty_label Sample.summary Sample.config
       [("created", [PStr "SCAL-124"; PStr "SCAL-123"])]
       [("open", [PStr "SCAL-123"; PStr "SCAL-118"; PStr "SCAL-117"; PStr "SCAL-110"])]
       "resolved" eq_refl))).
Defined.

(** C8 (as amended). For a summary whose base URL and keys hold no
    single quote, no opening angle bracket and no ampersand, and whose
    labels and counts hold no opening angle bracket, reading the anchors
    back out of the
    rendered body gives, label after label and key after key in the
    summary's order, the pair of [base_url/browse/key] and the key as link
    text; so the targets read back are exactly those URLs in that order. *)
Theorem render_then_read_links (summary : JiraIssueSummary) (config : JiraConfig) :
  embeddable summary config = true ->
  Markup.links (build_email_body summary config) = expected_links summary config
  /\ Markup.hrefs (build_email_body summary config)
     = flat_map
         (fun item : string * list pyval =>
            map (fun key => base_url config ++ "/browse/" ++ PyStr.str key) (snd item))
         (issue_keys summary).
Proof.
  intros H. unfold embeddable in H.
  apply andb_true_iff in H as [H Hitems].
  apply andb_true_iff in H as [H Ho]. apply andb_true_iff in H as [H Hr].
  apply andb_true_iff in H as [Hb Hc].
  apply negb_true_iff in Hc, Hr, Ho.
  assert (L : Markup.links (build_email_body summary config)
              = expected_links summary config).
  { unfold build_email_body, expected_links. rewrite body_lines_eq.
    pose proof
      (MarkupFacts.emits_join newline _ _
         (MarkupFacts.emits_inert newline eq_refl)
         (Forall2_app
            (header_lines_emits summary Hc Hr Ho)
            (sections_emit config (issue_keys summary) Hb Hitems))) as E.
    specialize (E ""). rewrite TextFacts.app_nil_r in E. rewrite E.
    cbn [Markup.links]. rewrite List.app_nil_r.
    rewrite concat_app. cbn [List.concat app].
    apply concat_sections. }
  split; [exact L |].
  unfold Markup.hrefs. rewrite L. unfold expected_links, anchors_of.
  clear. induction (issue_keys summary) as [|item items IH]; cbn [flat_map map];
    [reflexivity |].
  rewrite map_app, IH, map_map. reflexivity.
Qed.

Lemma render_then_read_links_witness :
  Markup.links (build_email_body Sample.summary Sample.config)
  = [("https://jira.example.org/browse/SCAL-124", "SCAL-124");
     ("https://jira.example.org/browse/SCAL-123", "SCAL-123");
     ("https://jira.example.org/browse/SCAL-123", "SCAL-123");
     ("https://jira.example.org/browse/SCAL-118", "SCAL-118");
     ("https://jira.example.org/browse/SCAL-117", "SCAL-117");
     ("https://jira.example.org/browse/SCAL-110", "SCAL-110")].
Proof.
  exact (proj1 (render_then_read_links Sample.summary Sample.config eq_refl)).
Defined.

(** C8 as stated fails: a key with a single quote ends the attribute
    early, and the URL of that key cannot be read back. *)
Lemma quoted_key_breaks_round_trip :
  build_email_body Sample.quoted Sample.config
  = Text.join newline
      [ "<h2>Weekly Jira Project Summary</h2>";
        "<ul>";
        "  <li>Issues created: <strong>1</strong></li>";
        "  <li>Issues resolved: <strong>0</strong></li>";
        "  <li>Issues currently open: <strong>1</strong></li>";
        "</ul>";
        "<h3>Issue Links</h3>";
        "<p><strong>Open issues</strong>:</p>";
        "<ul><li><a href='https://jira.example.org/browse/SCAL-1'0'>SCAL-1'0</a></li></ul>" ]
  /\ expected_links Sample.quoted Sample.config
     = [("https://jira.example.org/browse/SCAL-1'0", "SCAL-1'0")]
  /\ Markup.hrefs (build_email_body Sample.quoted Sample.config)
     <> map fst (expected_links Sample.quoted Sample.config).
Proof.
  split; [reflexivity | split; [reflexivity |]].
  vm_compute. discriminate.
Qed.

(** ** [main] *)

Section Main.
Variables (w : world) (args : Namespace).

(** Summarizing talks to the tracker only: it prints nothing and sends no
    mail, whether it returns or raises. *)
Lemma summarize_issues_quiet (config : JiraConfig) (start end_ : datetime)
    (f : string) (t0 : trace) :
  let t' := snd (summarize_issues w config start end_ f t0) in
  printed t' = printed t0 /\ smtp_commands t' = smtp_commands t0.
Proof.
  cbv zeta. rewrite summarize_issues_cases.
  pose proof (call_jira_api_effects w config
                (query_for config start end_ f "created") t0)
    as (_ & P1 & S1).
  destruct (call_jira_api w config _ t0) as [[[n1 k1] | e1] t1]; cbn [snd] in *;
    [| split; assumption].
  pose proof (call_jira_api_effects w config
                (query_for config start end_ f "resolved")
                (t1 ++ [count_log "created" n1])%list)
    as (_ & P2 & S2).
  destruct (call_jira_api w config _ (t1 ++ _)%list) as [[[n2 k2] | e2] t2];
    cbn [snd] in *; rewrite printed_app in P2; rewrite smtp_commands_app in S2;
    cbn in P2, S2; rewrite List.app_nil_r in P2, S2;
    [| split; congruence].
  pose proof (call_jira_api_effects w config
                (query_for config start end_ f "open")
                (t2 ++ [count_log "resolved" n2])%list)
    as (_ & P3 & S3).
  destruct (call_jira_api w config _ (t2 ++ _)%list) as [[[n3 k3] | e3] t3];
    cbn [snd] in *; rewrite printed_app in P3; rewrite smtp_commands_app in S3;
    cbn in P3, S3; rewrite List.app_nil_r in P3, S3;
    [| split; congruence].
  rewrite printed_app, smtp_commands_app; cbn; rewrite !List.app_nil_r.
  split; congruence.
Qed.

Lemma JiraConfig_from_env_raises (env : dict string) (exc : exn) :
  JiraConfig_from_env env = Raise exc -> exists msg, exc = EnvironmentError msg.
Proof.
  unfold JiraConfig_from_env.
  destruct (filter (env_missing env) jira_required); [discriminate |].
  intros [= <-]; eexists; reflexivity.
Qed.

Lemma SmtpConfig_from_env_missing (env : dict string) (name : string) :
  In name smtp_required -> env_missing env name = true ->
  exists msg, SmtpConfig_from_env env = Raise (EnvironmentError msg).
Proof.
  intros Hin Hmiss. unfold SmtpConfig_from_env.
  assert (Hf : In name (filter (env_missing env) smtp_required))
    by (apply filter_In; split; assumption).
  destruct (filter (env_missing env) smtp_required); [destruct Hf |].
  eexists; reflexivity.
Qed.

End Main.



(** C10 (as amended). A dry run with a required SMTP variable unset or
    empty ends in the configuration error all the same, provided the
    window can be computed: [main] then logs one configuration error and
    returns 1, having sent no request to the tracker, printed nothing and
    issued no SMTP command. *)
Theorem main_dry_run_missing_smtp (w : world) (args : Namespace) (t0 : trace)
    (start : datetime) (name : string) :
  dry_run args = true ->
  Calendar.sub_days (utcnow w) (days args) = Some start ->
  In name smtp_required ->
  env_missing (environ w) name = true ->
  let t' := snd (main w args t0) in
  (exists msg,
     main w args t0
     = (Ok EXIT_CONFIG, (t0 ++ [EvLog ERROR ("Configuration error: " ++ msg)])%list))
  /\ http_requests t' = http_requests t0
  /\ printed t' = printed t0
  /\ smtp_commands t' = smtp_commands t0.
Proof.
  intros _ Hwin Hin Hmiss.
  assert (E : exists msg,
             main w args t0
             = (Ok EXIT_CONFIG,
                (t0 ++ [EvLog ERROR ("Configuration error: " ++ msg)])%list)).
  { unfold main. rewrite Hwin.
    destruct (JiraConfig_from_env (environ w)) as [jira_config | exc] eqn:Hj; cbn [rbind].
    - destruct (SmtpConfig_from_env_missing _ _ Hin Hmiss) as [msg ->]; cbn [rbind].
      exists msg. reflexivity.
    - destruct (JiraConfig_from_env_raises _ _ Hj) as [msg ->].
      exists msg. reflexivity. }
  cbv zeta. destruct E as [msg E]. rewrite E; cbn [snd].
  split; [exists msg; reflexivity |].
  rewrite http_requests_app, printed_app, smtp_commands_app; cbn.
  rewrite !List.app_nil_r. auto.
Qed.

Lemma main_dry_run_missing_smtp_witness :
  exists msg,
    main Sample.without_password Sample.dry_run_args []
    = (Ok 1, [EvLog ERROR ("Configuration error: " ++ msg)]).
Proof.
  exact (proj1 (main_dry_run_missing_smtp Sample.without_password Sample.dry_run_args []
                  Sample.start "SMTP_PASSWORD" eq_refl eq_refl
                  ltac:(cbn; tauto) eq_refl)).
Defined.

(** C10 as stated fails: the start of the window is computed before any
    variable is read, and 800000 days before 2024-06-10 lies before the
    first day of the calendar; the dry run with SMTP_PASSWORD unset then
    leaves [main] with an [OverflowError], with no exit code and no
    configuration error logged. *)
Lemma dry_run_window_overflow :
  dry_run Sample.far_back_args = true
  /\ In "SMTP_PASSWORD" smtp_required
  /\ env_missing (environ Sample.without_password) "SMTP_PASSWORD" = true
  /\ main Sample.without_password Sample.far_back_args [] = (Raise OverflowError, [])
  /\ fst (main Sample.without_password Sample.far_back_args []) <> Ok EXIT_CONFIG.
Proof.
  split; [reflexivity |]. split; [cbn; tauto |]. split; [reflexivity |].
  split; [vm_compute; reflexivity | vm_compute; discriminate].
Qed.

(** The end-to-end dry run: seven days back from 2024-06-10, project SCAL,
    a tracker reporting 12 created, 9 resolved and 5 open issues, the open
    page holding four keys. *)
Example dry_run_scenario :
  let '(r, t) := main Sample.scenario Sample.dry_run_args [] in
  r = Ok EXIT_OK
  /\ smtp_commands t = []
  /\ List.length (http_requests t) = 3%nat
  /\ printed t
     = [ Text.join newline
           [ "<h2>Weekly Jira Project Summary</h2>";
             "<ul>";
             "  <li>Issues created: <strong>12</strong></li>";
             "  <li>Issues resolved: <strong>9</strong></li>";
             "  <li>Issues currently open: <strong>5</strong></li>";
             "</ul>";
             "<h3>Issue Links</h3>";
             "<p><strong>Created issues</strong>:</p>";
             "<ul><li><a href='https://jira.example.org/browse/SCAL-124'>SCAL-124</a></li>"
               ++ "<li><a href='https://jira.example.org/browse/SCAL-123'>SCAL-123</a></li></ul>";
             "<p><strong>Resolved issues</strong>:</p>";
             "<p>No issues found.</p>";
             "<p><strong>Open issues</strong>:</p>";
             "<ul><li><a href='https://jira.example.org/browse/SCAL-123'>SCAL-123</a></li>"
               ++ "<li><a href='https://jira.example.org/browse/SCAL-118'>SCAL-118</a></li>"
               ++ "<li><a href='https://jira.example.org/browse/SCAL-117'>SCAL-117</a></li>"
               ++ "<li><a href='https://jira.example.org/browse/SCAL-110'>SCAL-110</a></li></ul>" ] ].
Proof. vm_compute. repeat split. Qed.

(* ================================================================== *)
(** * Part III: further properties of the script *)
(* ================================================================== *)

(** ** Loading the configuration *)

Section FromEnv.
Variable env : dict string.

Lemma rstrip_slash_split (s : string) :
  exists k, s = Text.rstrip_slash s ++ slashes k.
Proof.
  induction s as [|c s [k IH]]; [exists O; reflexivity |].
  cbn [Text.rstrip_slash].
  destruct (Text.rstrip_slash s) as [|c2 r] eqn:E.
  - cbn in IH. destruct (Ascii.eqb c "/") eqn:Ec.
    + apply Ascii.eqb_eq in Ec; subst c. exists (S k); cbn; congruence.
    + exists k; cbn; congruence.
  - exists k. cbn [append] in *. congruence.
Qed.

Lemma rstrip_slash_tail (s a : string) : Text.rstrip_slash s <> a ++ "/".
Proof.
  revert a; induction s as [|c s IH]; intros a; cbn [Text.rstrip_slash].
  - destruct a; discriminate.
  - destruct (Text.rstrip_slash s) as [|c2 r] eqn:E.
    + destruct (Ascii.eqb c "/") eqn:Ec; [destruct a; discriminate |].
      destruct a as [|c' [|c'' a]]; cbn; try discriminate.
      intros [= ->]. rewrite Ascii.eqb_refl in Ec; discriminate.
    + destruct a as [|c' a]; cbn; [discriminate |].
      intros [= _ H]. exact (IH a H).
Qed.

Lemma present_nonempty (name : string) :
  env_missing env name = false -> env_at env name <> "".
Proof.
  unfold env_missing, env_at. destruct (dict_get env name) as [[|c v]|]; cbn;
    intros H; discriminate.
Qed.

Lemma missing_of_spec (required : list string) (name : string) :
  In name (missing_of env required)
  <-> In name required /\ env_missing env name = true.
Proof. apply filter_In. Qed.

Lemma none_missing (required : list string) :
  missing_of env required = [] ->
  forall name, In name required -> env_missing env name = false.
Proof.
  intros H name Hin. destruct (env_missing env name) eqn:E; [| reflexivity].
  assert (In name (missing_of env required)) by (apply missing_of_spec; auto).
  rewrite H in *. contradiction.
Qed.

End FromEnv.

(** X1. [JiraConfig.from_env] returns a configuration only when none of
    the four required variables is unset or empty; otherwise it raises an
    [EnvironmentError] whose message lists the lacking names, and only
    those, in the order JIRA_BASE_URL, JIRA_PROJECT_KEY, JIRA_AUTH_EMAIL,
    JIRA_API_TOKEN, separated by comma and space. *)
Theorem JiraConfig_from_env_outcome (env : dict string) :
  match JiraConfig_from_env env with
  | Ok _ => forall name, In name jira_required -> env_missing env name = false
  | Raise e =>
      e = EnvironmentError
            ("Missing required environment variables: "
               ++ Text.join ", " (missing_of env jira_required))
      /\ missing_of env jira_required <> []
      /\ (forall name,
            In name (missing_of env jira_required)
            <-> In name jira_required /\ env_missing env name = true)
  end.
Proof.
  unfold JiraConfig_from_env. fold (missing_of env jira_required).
  destruct (missing_of env jira_required) as [|n ns] eqn:E.
  - apply none_missing, E.
  - rewrite <- E. split; [reflexivity | split].
    + rewrite E; discriminate.
    + apply missing_of_spec.
Qed.

(** X2. A configuration that [JiraConfig.from_env] returns has the value of
    JIRA_BASE_URL with its whole trailing run of slashes removed as base
    URL, so the base URL never ends with a slash; project key, auth e-mail
    and token are the values of their variables and are not empty; TLS
    verification is on exactly when JIRA_VERIFY_SSL is unset or reads
    "true" in any letter case. *)
Theorem JiraConfig_from_env_fields (env : dict string) (config : JiraConfig) :
  JiraConfig_from_env env = Ok config ->
  (exists k, env_at env "JIRA_BASE_URL" = base_url config ++ slashes k)
  /\ ~ Text.EndsWith "/" (base_url config)
  /\ project_key config = env_at env "JIRA_PROJECT_KEY"
  /\ auth_email config = env_at env "JIRA_AUTH_EMAIL"
  /\ api_token config = env_at env "JIRA_API_TOKEN"
  /\ project_key config <> "" /\ auth_email config <> "" /\ api_token config <> ""
  /\ (verify_ssl config = true
      <-> Text.lower (env_get env "JIRA_VERIFY_SSL" "true") = "true").
Proof.
  unfold JiraConfig_from_env. fold (missing_of env jira_required).
  destruct (missing_of env jira_required) eqn:E; [| discriminate].
  intros [= <-]; cbn.
  pose proof (none_missing env _ E) as N.
  repeat split; try reflexivity.
  - apply rstrip_slash_split.
  - intros [a H]. exact (rstrip_slash_tail _ _ H).
  - apply present_nonempty, N; cbn; tauto.
  - apply present_nonempty, N; cbn; tauto.
  - apply present_nonempty, N; cbn; tauto.
  - apply String.eqb_eq.
  - apply String.eqb_eq.
Qed.

Lemma JiraConfig_from_env_fields_witness :
  (exists k, "https://jira.example.org/" = "https://jira.example.org" ++ slashes k)
  /\ ~ Text.EndsWith "/" "https://jira.example.org".
Proof.
  destruct (JiraConfig_from_env_fields Sample.full_environ Sample.config eq_refl)
    as (H1 & H2 & _).
  split; [exact H1 | exact H2].
Defined.

(** X3. [SmtpConfig.from_env] checks for lacking variables before it reads
    the port: with one of the six required variables unset or empty it
    raises an [EnvironmentError] listing the lacking names; with all six
    set and an SMTP_PORT of at most 640 ASCII characters it raises a
    [ValueError] exactly when the port is no decimal literal as [int]
    reads ASCII text (blanks around it, a sign, digits with single
    underscores between them) and otherwise returns the configuration
    with that port. It raises nothing else. *)
Theorem SmtpConfig_from_env_outcome (env : dict string) :
  PyInt.in_domain (env_at env "SMTP_PORT") = true ->
  match SmtpConfig_from_env env with
  | Ok smtp =>
      missing_of env smtp_required = []
      /\ PyInt.parse (env_at env "SMTP_PORT") = Some (smtp_port smtp)
      /\ smtp_host smtp = env_at env "SMTP_HOST"
      /\ smtp_sender smtp = env_at env "SMTP_SENDER"
      /\ smtp_recipient smtp = env_at env "SMTP_RECIPIENT"
      /\ smtp_recipient smtp <> ""
  | Raise (EnvironmentError msg) =>
      msg = "Missing required SMTP environment variables: "
              ++ Text.join ", " (missing_of env smtp_required)
      /\ exists name, In name smtp_required /\ env_missing env name = true
  | Raise (ValueError _) =>
      missing_of env smtp_required = []
      /\ PyInt.parse (env_at env "SMTP_PORT") = None
  | Raise _ => False
  end.
Proof.
  intros _. unfold SmtpConfig_from_env. fold (missing_of env smtp_required).
  destruct (missing_of env smtp_required) as [|n ns] eqn:E.
  - destruct (PyInt.parse (env_at env "SMTP_PORT")) as [port|] eqn:P; cbn.
    + repeat split; try reflexivity.
      apply present_nonempty, (none_missing env _ E); cbn; tauto.
    + split; reflexivity.
  - rewrite <- E. split; [reflexivity |].
    exists n. apply missing_of_spec. rewrite E; left; reflexivity.
Qed.

Lemma SmtpConfig_from_env_outcome_witness :
  PyInt.parse "smtp" = None
  /\ SmtpConfig_from_env (Sample.environ_with "SMTP_PORT" "smtp")
     = Raise (ValueError "invalid literal for int() with base 10: 'smtp'")
  /\ PyInt.parse "587" = Some 587.
Proof.
  pose proof (SmtpConfig_from_env_outcome (Sample.environ_with "SMTP_PORT" "smtp") eq_refl)
    as H1.
  pose proof (SmtpConfig_from_env_outcome Sample.full_environ eq_refl) as H2.
  split; [exact (proj2 H1) |]. split; [reflexivity | exact (proj1 (proj2 H2))].
Defined.

(** ** One call to the tracker *)

Section OneCall.
Variables (w : world) (config : JiraConfig) (jql : string) (t : trace).

(** A call that returns has left nothing but its request on the trace. *)
Lemma call_jira_api_ok_trace (x : pyval * list pyval) (t' : trace) :
  call_jira_api w config jql t = (Ok x, t') ->
  t' = (t ++ [EvHttpGet (search_request config jql)])%list.
Proof.
  rewrite call_jira_api_cases.
  destruct (http_get w t (search_request config jql)) as [r | exc];
    [| intros [=]].
  destruct (status_code r =? 200); intros [= _ <-]. reflexivity.
Qed.

Lemma keys_of_items (items keys : list pyval) :
  map_result (fun issue => py_getitem issue "key") items = Ok keys
  <-> Forall2 has_key items keys.
Proof.
  split; [| apply map_result_keys].
  revert keys; induction items as [|issue items IH]; intros keys; cbn.
  - intros [= <-]; constructor.
  - destruct (py_getitem issue "key") as [k|] eqn:Hk; cbn; [| discriminate].
    destruct (map_result _ items) as [ks|] eqn:Hks; cbn; [| discriminate].
    intros [= <-]. constructor; [| apply IH; reflexivity].
    destruct issue; cbn in Hk; try discriminate.
    destruct (dict_get entries "key") eqn:E; [| discriminate].
    injection Hk as ->. eexists; split; [reflexivity | exact E].
Qed.

Lemma keys_of_items_stop (pre post : list pyval) (bad : pyval) (e : exn) :
  (exists ks, Forall2 has_key pre ks) ->
  py_getitem bad "key" = Raise e ->
  map_result (fun issue => py_getitem issue "key") (pre ++ bad :: post)%list = Raise e.
Proof.
  intros [ks H] Hbad. induction H as [| issue k pre ks (fields & -> & Hk) _ IH]; cbn.
  - rewrite Hbad; reflexivity.
  - rewrite Hk; cbn. rewrite IH; reflexivity.
Qed.

End OneCall.

(** X4. A call to the tracker makes one attempt: whatever happens, it adds
    to the trace exactly one HTTP request, the search request for its
    query, followed by at most one error log record; it logs nothing when
    it returns a result. *)
Theorem call_jira_api_single_attempt (w : world) (config : JiraConfig)
    (jql : string) (t : trace) :
  exists logs,
    snd (call_jira_api w config jql t)
    = (t ++ EvHttpGet (search_request config jql) :: logs)%list
    /\ (logs = [] \/ exists msg, logs = [EvLog ERROR msg])
    /\ (forall x, fst (call_jira_api w config jql t) = Ok x -> logs = []).
Proof.
  rewrite call_jira_api_cases.
  destruct (http_get w t (search_request config jql)) as [r | exc].
  - destruct (status_code r =? 200); cbn [fst snd].
    + exists []. repeat split; auto.
    + eexists. split; [reflexivity |]. split; [right; eexists; reflexivity |].
      intros x [=].
  - destruct (is_RequestException exc); cbn [fst snd].
    + eexists. split; [reflexivity |]. split; [right; eexists; reflexivity |].
      intros x [=].
    + exists []. split; [reflexivity |]. split; [left; reflexivity |].
      intros x [=].
Qed.

(** X5. On a 200 response the call returns a total and keys exactly when
    the body decodes to a JSON object whose [issues] (the empty list when
    absent) can be iterated and every item of it is an object with a
    [key]; the keys are then those members in order and the total is the
    object's [total], or the number of keys when it has none. *)
Theorem call_jira_api_returns_iff (w : world) (config : JiraConfig) (jql : string)
    (t : trace) (r : http_response) (total : pyval) (keys : list pyval) :
  http_get w t (search_request config jql) = HttpResponse r ->
  status_code r = 200 ->
  (fst (call_jira_api w config jql t) = Ok (total, keys)
   <-> exists d items,
         json r = Some (PDict d)
         /\ py_iter (match dict_get d "issues" with Some v => v | None => PList [] end)
            = Ok items
         /\ Forall2 has_key items keys
         /\ total = match dict_get d "total" with
                    | Some v => v
                    | None => PInt (Z.of_nat (List.length keys))
                    end).
Proof.
  intros Hget Hst. rewrite call_jira_api_cases, Hget, Hst; cbn [Z.eqb Pos.eqb fst].
  split.
  - intros H. destruct (parse_search_inv _ _ _ H)
      as (d & issues & items & Hj & -> & Hit & Hks & Ht).
    exists d, items. repeat split; try assumption.
    apply keys_of_items, Hks.
  - intros (d & items & Hj & Hit & Hks & ->).
    unfold parse_search, response_json. rewrite Hj; cbn [rbind py_get].
    rewrite Hit; cbn [rbind]. apply keys_of_items in Hks. rewrite Hks. reflexivity.
Qed.

Lemma call_jira_api_returns_iff_witness :
  fst (call_jira_api (Sample.answering (HttpResponse Sample.untotalled))
         Sample.config "q" [])
  = Ok (PInt 2, [PStr "SCAL-123"; PStr "SCAL-118"]).
Proof.
  apply (proj2 (call_jira_api_returns_iff
                  (Sample.answering (HttpResponse Sample.untotalled))
                  Sample.config "q" [] Sample.untotalled _ _ eq_refl eq_refl)).
  exists [("issues", PList [Sample.issue "SCAL-123"; Sample.issue "SCAL-118"])],
         [Sample.issue "SCAL-123"; Sample.issue "SCAL-118"].
  repeat split.
  repeat constructor; eexists; split; reflexivity.
Defined.

(** X6. One issue without a [key] fails the whole call: when the issues
    before it are objects with keys and it is an object that has no [key]
    member, the call on that 200 response raises [KeyError] for ["key"],
    returns none of the keys read so far and writes no log record. *)
Theorem call_jira_api_keyless_issue (w : world) (config : JiraConfig) (jql : string)
    (t : trace) (r : http_response) (d fields : dict pyval)
    (pre post : list pyval) :
  http_get w t (search_request config jql) = HttpResponse r ->
  status_code r = 200 ->
  json r = Some (PDict d) ->
  dict_get d "issues" = Some (PList (pre ++ PDict fields :: post)%list) ->
  (exists ks, Forall2 has_key pre ks) ->
  dict_get fields "key" = None ->
  call_jira_api w config jql t
  = (Raise (KeyError "key"), (t ++ [EvHttpGet (search_request config jql)])%list).
Proof.
  intros Hget Hst Hj Hissues Hpre Hbad.
  rewrite call_jira_api_cases, Hget, Hst; cbn [Z.eqb Pos.eqb].
  unfold parse_search, response_json. rewrite Hj; cbn [rbind py_get].
  rewrite Hissues; cbn [py_iter rbind].
  rewrite (keys_of_items_stop pre post (PDict fields) (KeyError "key") Hpre);
    [reflexivity |].
  cbn. rewrite Hbad. reflexivity.
Qed.

Lemma call_jira_api_keyless_issue_witness :
  call_jira_api (Sample.answering (HttpResponse Sample.keyless)) Sample.config "q" []
  = (Raise (KeyError "key"), [EvHttpGet (search_request Sample.config "q")]).
Proof.
  refine (call_jira_api_keyless_issue
            (Sample.answering (HttpResponse Sample.keyless)) Sample.config "q" []
            Sample.keyless _ [("id", PStr "10001")] [Sample.issue "SCAL-123"] []
            eq_refl eq_refl eq_refl eq_refl _ eq_refl).
  exists [PStr "SCAL-123"]. repeat constructor. eexists; split; reflexivity.
Defined.

(** ** The three calls of a summary *)

Section Summary.
Variables (w : world) (config : JiraConfig) (start end_ : datetime) (f : string).

Lemma logged_app (a b : trace) : logged (a ++ b)%list = (logged a ++ logged b)%list.
Proof. apply flat_map_app. Qed.

Lemma sent_messages_app (a b : trace) :
  sent_messages (a ++ b)%list = (sent_messages a ++ sent_messages b)%list.
Proof. apply flat_map_app. Qed.

(** A run that returns a summary, taken apart. *)
Lemma summarize_issues_ok_inv (t0 t' : trace) (summary : JiraIssueSummary) :
  summarize_issues w config start end_ f t0 = (Ok summary, t') ->
  exists k1 k2 k3,
    summary = {| created_count := created_count summary;
                 resolved_count := resolved_count summary;
                 open_count := open_count summary;
                 issue_keys := [("created", k1); ("resolved", k2); ("open", k3)] |}
    /\ t' = (t0 ++ [EvHttpGet (request_for config start end_ f "created");
                    count_log "created" (created_count summary);
                    EvHttpGet (request_for config start end_ f "resolved");
                    count_log "resolved" (resolved_count summary);
                    EvHttpGet (request_for config start end_ f "open");
                    count_log "open" (open_count summary)])%list.
Proof.
  rewrite summarize_issues_cases.
  destruct (call_jira_api w config _ t0) as [[[n1 k1] | e1] t1] eqn:C1;
    [| discriminate].
  destruct (call_jira_api w config _ (t1 ++ _)%list) as [[[n2 k2] | e2] t2] eqn:C2;
    [| discriminate].
  destruct (call_jira_api w config _ (t2 ++ _)%list) as [[[n3 k3] | e3] t3] eqn:C3;
    [| discriminate].
  intros [= <- <-]. exists k1, k2, k3. split; [reflexivity |]. cbn.
  apply call_jira_api_ok_trace in C1, C2, C3. subst t1 t2 t3.
  unfold request_for. repeat rewrite <- List.app_assoc. reflexivity.
Qed.

End Summary.

(** The requests of a run are an initial part of the three. *)
Lemma summarize_issues_prefix (w : world) (config : JiraConfig)
    (start end_ : datetime) (f : string) (t0 : trace) :
  exists n,
    (1 <= n <= 3)%nat
    /\ http_requests (snd (summarize_issues w config start end_ f t0))
       = (http_requests t0
            ++ firstn n (map (request_for config start end_ f) labels))%list
    /\ (forall summary,
          fst (summarize_issues w config start end_ f t0) = Ok summary -> n = 3%nat).
Proof.
  rewrite summarize_issues_cases.
  pose proof (call_jira_api_effects w config (query_for config start end_ f "created") t0)
    as (R1 & _).
  destruct (call_jira_api w config _ t0) as [[[n1 k1] | e1] t1]; cbn [snd] in R1;
    [| exists 1%nat; cbn [fst snd]; split; [lia | split; [exact R1 | discriminate]]].
  pose proof (call_jira_api_effects w config (query_for config start end_ f "resolved")
                (t1 ++ [count_log "created" n1])%list) as (R2 & _).
  destruct (call_jira_api w config _ (t1 ++ _)%list) as [[[n2 k2] | e2] t2];
    cbn [snd] in R2; rewrite http_requests_app, R1 in R2; cbn in R2;
    rewrite List.app_nil_r, <- List.app_assoc in R2; cbn in R2;
    [| exists 2%nat; cbn [fst snd]; split; [lia | split; [exact R2 | discriminate]]].
  pose proof (call_jira_api_effects w config (query_for config start end_ f "open")
                (t2 ++ [count_log "resolved" n2])%list) as (R3 & _).
  destruct (call_jira_api w config _ (t2 ++ _)%list) as [[[n3 k3] | e3] t3];
    cbn [snd] in R3; rewrite http_requests_app, R2 in R3; cbn in R3;
    rewrite List.app_nil_r, <- List.app_assoc in R3; cbn in R3;
    exists 3%nat; cbn [fst snd]; (split; [lia | split; [| reflexivity]]);
    [| exact R3].
  rewrite http_requests_app, R3; cbn. rewrite List.app_nil_r. reflexivity.
Qed.

(** X7. Whatever the tracker does, [summarize_issues] sends at least one
    and at most three requests, and they are an initial part of the
    requests for created, resolved and open in that order; it returns a
    summary only after all three. *)
Theorem summarize_issues_requests (w : world) (config : JiraConfig)
    (start end_ : datetime) (f : string) (t0 : trace) :
  exists n,
    (1 <= n <= 3)%nat
    /\ http_requests (snd (summarize_issues w config start end_ f t0))
       = (http_requests t0
            ++ firstn n (map (request_for config start end_ f) labels))%list
    /\ (forall summary,
          fst (summarize_issues w config start end_ f t0) = Ok summary -> n = 3%nat).
Proof. apply summarize_issues_prefix. Qed.

(** X8. A summary that [summarize_issues] returns holds exactly the labels
    created, resolved and open, in that order, and the run has logged one
    INFO record per label, "Created issues: n", "Resolved issues: n",
    "Open issues: n", with the counts of the summary, and nothing else. *)
Theorem summarize_issues_result (w : world) (config : JiraConfig)
    (start end_ : datetime) (f : string) (t0 t' : trace)
    (summary : JiraIssueSummary) :
  summarize_issues w config start end_ f t0 = (Ok summary, t') ->
  map fst (issue_keys summary) = labels
  /\ logged t'
     = (logged t0
          ++ [(INFO, ("Created issues: " ++ PyStr.str (created_count summary))%string);
              (INFO, ("Resolved issues: " ++ PyStr.str (resolved_count summary))%string);
              (INFO, ("Open issues: " ++ PyStr.str (open_count summary))%string)])%list.
Proof.
  intros H. destruct (summarize_issues_ok_inv _ _ _ _ _ _ _ _ H)
    as (k1 & k2 & k3 & Hs & ->).
  split; [rewrite Hs; reflexivity |].
  rewrite logged_app. reflexivity.
Qed.

Lemma summarize_issues_result_witness :
  logged (snd (summarize_issues Sample.scenario Sample.config Sample.start
                 Sample.end_ "" []))
  = [(INFO, "Created issues: 12"); (INFO, "Resolved issues: 9");
     (INFO, "Open issues: 5")].
Proof.
  exact (proj2 (summarize_issues_result Sample.scenario Sample.config
                  Sample.start Sample.end_ "" []
                  (snd (summarize_issues Sample.scenario Sample.config Sample.start
                          Sample.end_ "" []))
                  Sample.summary eq_refl)).
Defined.

(** ** What a body always holds *)

Section BodyContents.
Import Text.

Lemma Substring_refl (s : string) : Substring s s.
Proof. exists "", "". cbn. symmetry; apply TextFacts.app_nil_r. Qed.

Lemma Substring_trans (a b c : string) : Substring a b -> Substring b c -> Substring a c.
Proof.
  intros (x & y & ->) (u & v & ->). exists (u ++ x), (y ++ v).
  repeat rewrite TextFacts.app_assoc. reflexivity.
Qed.

Lemma Substring_app_l (p a b : string) : Substring p a -> Substring p (a ++ b).
Proof.
  intros (x & y & ->). exists x, (y ++ b).
  repeat rewrite TextFacts.app_assoc. reflexivity.
Qed.

Lemma Substring_app_r (p a b : string) : Substring p b -> Substring p (a ++ b).
Proof.
  intros (x & y & ->). exists (a ++ x), y.
  repeat rewrite TextFacts.app_assoc. reflexivity.
Qed.

Lemma join_cons (sep x : string) (l : list string) :
  join sep (x :: l)
  = x ++ match l with [] => "" | _ :: _ => sep ++ join sep l end.
Proof.
  destruct l; cbn; [symmetry; apply TextFacts.app_nil_r | reflexivity].
Qed.

Lemma Substring_join (sep line : string) (lines : list string) :
  In line lines -> Substring line (join sep lines).
Proof.
  induction lines as [|x l IH]; [intros [] |].
  intros [<- | H]; rewrite join_cons.
  - apply Substring_app_l, Substring_refl.
  - apply Substring_app_r. destruct l; [destruct H |].
    apply Substring_app_r, IH, H.
Qed.

Lemma Substring_concat_all (x : string) (xs : list string) :
  In x xs -> Substring x (concat_all xs).
Proof.
  induction xs as [|y xs IH]; [intros [] |].
  intros [<- | H]; cbn.
  - apply Substring_app_l, Substring_refl.
  - apply Substring_app_r, IH, H.
Qed.

End BodyContents.

(** X9. Whatever the summary, the body opens with the heading, the list of
    the three counters in the order created, resolved, currently open,
    each showing its count, and the heading of the links; a summary
    without labels renders to that opening alone. *)
Theorem build_email_body_opening (summary : JiraIssueSummary) (config : JiraConfig) :
  exists rest,
    build_email_body summary config
    = "<h2>Weekly Jira Project Summary</h2>" ++ newline
        ++ "<ul>" ++ newline
        ++ "  <li>Issues created: <strong>" ++ PyStr.str (created_count summary)
        ++ "</strong></li>" ++ newline
        ++ "  <li>Issues resolved: <strong>" ++ PyStr.str (resolved_count summary)
        ++ "</strong></li>" ++ newline
        ++ "  <li>Issues currently open: <strong>" ++ PyStr.str (open_count summary)
        ++ "</strong></li>" ++ newline
        ++ "</ul>" ++ newline
        ++ "<h3>Issue Links</h3>" ++ rest
    /\ (issue_keys summary = [] -> rest = "").
Proof.
  unfold build_email_body. rewrite body_lines_eq.
  unfold header_lines; cbn [app].
  repeat rewrite join_cons.
  eexists; split.
  - repeat rewrite TextFacts.app_assoc. cbn [append]. reflexivity.
  - intros ->. reflexivity.
Qed.

(** X10. Every key of every label of the summary is linked in the body:
    the body holds the anchor that points to [base_url/browse/key] and
    shows the key. *)
Theorem build_email_body_links_every_key (summary : JiraIssueSummary)
    (config : JiraConfig) (label : string) (keys : list pyval) (key : pyval) :
  In (label, keys) (issue_keys summary) ->
  In key keys ->
  Text.Substring
    ("<a href='" ++ base_url config ++ "/browse/" ++ PyStr.str key ++ "'>"
       ++ PyStr.str key ++ "</a>")
    (build_email_body summary config).
Proof.
  intros Hl Hk. unfold build_email_body. rewrite body_lines_eq.
  apply Substring_trans
    with (b := "<ul>" ++ Text.concat_all (map (link_item config) keys) ++ "</ul>").
  - apply Substring_app_r, Substring_app_l.
    apply Substring_trans with (b := link_item config key).
    + unfold link_item.
      eapply TextFacts.Substring_intro with (a := "<li>") (b := "</li>"). text_eq.
    + apply Substring_concat_all, in_map, Hk.
  - apply Substring_join, in_or_app. right.
    apply in_flat_map. exists (label, keys). split; [exact Hl |].
    destruct keys as [|k0 ks]; [destruct Hk |]. cbn. right; left; reflexivity.
Qed.

Lemma build_email_body_links_every_key_witness :
  Text.Substring
    "<a href='https://jira.example.org/browse/SCAL-117'>SCAL-117</a>"
    (build_email_body Sample.summary Sample.config).
Proof.
  apply (build_email_body_links_every_key Sample.summary Sample.config "open"
           [PStr "SCAL-123"; PStr "SCAL-118"; PStr "SCAL-117"; PStr "SCAL-110"]
           (PStr "SCAL-117")); cbn; tauto.
Defined.


(** ** Sending the mail *)

Section Composing.
Variables (smtp : SmtpConfig) (subject body_html : string).

Lemma compose_message_ok (m : email_message) :
  compose_message smtp subject body_html = Ok m ->
  m = composed_message smtp subject body_html.
Proof.
  unfold compose_message.
  destruct (Header.multi_line subject); [discriminate |].
  destruct (Header.multi_line (smtp_sender smtp)); [discriminate |].
  destruct (Header.multi_line (smtp_recipient smtp)); [discriminate |].
  intros [= <-]. reflexivity.
Qed.


End Composing.

(** Walks through every answer the mail server can give to the commands of
    one [send_email]. *)
Ltac smtp_paths :=
  repeat (match goal with
          | |- context [smtp_do ?w ?t ?c] => destruct (smtp_do w t c) eqn:?
          | |- context [is_SMTPException ?e] => destruct (is_SMTPException e) eqn:?
          end; cbn).

(** Splits on whether the message could be composed, and lays the session
    open. *)
Ltac unfold_send_email :=
  unfold send_email; unfold bind at 1; unfold lift;
  match goal with
  | |- context [compose_message ?smtp ?subject ?body] =>
      let Hc := fresh "Hc" in
      destruct (compose_message smtp subject body) as [? | ?] eqn:Hc;
      [apply compose_message_ok in Hc; subst |]
  end;
  unfold composed_message, connect_command, try_catch, finally, bind, smtp_cmd, ret,
    raise, log, emit; cbn.




(** X14. When the mail server rejects the login, no message is handed
    over: [send_email] raises and the messages sent are those sent
    before. *)
Theorem send_email_login_rejected (w : world) (smtp : SmtpConfig)
    (subject body_html : string) (t : trace) (e : exn) :
  (forall t', smtp_do w t' (SmtpLogin (smtp_username smtp) (smtp_password smtp))
              = Some e) ->
  (exists e', fst (send_email w smtp subject body_html t) = Raise e')
  /\ sent_messages (snd (send_email w smtp subject body_html t)) = sent_messages t.
Proof.
  intros H. unfold_send_email; [| split; [eexists |]; reflexivity].
  destruct (smtp_use_tls smtp); smtp_paths;
    try match goal with
        | X : smtp_do _ _ (SmtpLogin _ _) = None |- _ => rewrite H in X; discriminate X
        end;
    (split; [eexists; reflexivity |]);
    repeat rewrite sent_messages_app; cbn; repeat rewrite List.app_nil_r; reflexivity.
Qed.

Lemma send_email_login_rejected_witness :
  sent_messages (snd (send_email Sample.rejecting_login Sample.smtp "subject"
                        "<p>body</p>" []))
  = [].
Proof.
  exact (proj2 (send_email_login_rejected Sample.rejecting_login Sample.smtp
                  "subject" "<p>body</p>" []
                  (SMTPException "535 authentication failed") (fun _ => eq_refl))).
Defined.

(** What one [send_email] leaves on the trace besides SMTP commands and
    log records: nothing; and at most one message. *)
Lemma send_email_footprint (w : world) (smtp : SmtpConfig)
    (subject body_html : string) (t : trace) :
  let run := send_email w smtp subject body_html t in
  http_requests (snd run) = http_requests t
  /\ printed (snd run) = printed t
  /\ exists sent,
       sent_messages (snd run) = (sent_messages t ++ sent)%list
       /\ (sent = [] \/ sent = [composed_message smtp subject body_html])
       /\ (fst run = Ok tt -> sent = [composed_message smtp subject body_html]).
Proof.
  unfold_send_email;
    [| split; [reflexivity | split; [reflexivity |]];
       exists []; rewrite List.app_nil_r;
       split; [reflexivity | split; [left; reflexivity | discriminate]]].
  destruct (smtp_use_tls smtp); smtp_paths;
    repeat rewrite http_requests_app; repeat rewrite printed_app;
    repeat rewrite sent_messages_app; cbn; repeat rewrite List.app_nil_r;
    (split; [reflexivity | split; [reflexivity |]]);
    first [ exists []; rewrite List.app_nil_r;
            split; [reflexivity | split; [left; reflexivity | discriminate]]
          | eexists; split; [reflexivity |];
            split; [right; reflexivity | reflexivity] ].
Qed.

(** X15. [send_email] sends no HTTP request and prints nothing; it hands
    over at most one message, the one it composed, and it returns only
    when that message was handed over. *)
Theorem send_email_at_most_once (w : world) (smtp : SmtpConfig)
    (subject body_html : string) (t : trace) :
  let run := send_email w smtp subject body_html t in
  http_requests (snd run) = http_requests t
  /\ printed (snd run) = printed t
  /\ exists sent,
       sent_messages (snd run) = (sent_messages t ++ sent)%list
       /\ (sent = [] \/ sent = [composed_message smtp subject body_html])
       /\ (fst run = Ok tt -> sent = [composed_message smtp subject body_html]).
Proof. apply send_email_footprint. Qed.

(** ** The whole run *)

Section WholeRun.
Variables (w : world) (args : Namespace).

(** What [main] does with an exception of the configuration step. *)
Lemma main_cases (t0 : trace) :
  main w args t0 =
  match Calendar.sub_days (utcnow w) (days args) with
  | None => (Raise OverflowError, t0)
  | Some start =>
      let failed exc :=
        if is_EnvironmentError exc
        then (Ok EXIT_CONFIG,
              (t0 ++ [EvLog ERROR ("Configuration error: " ++ exn_str exc)])%list)
        else (Raise exc, t0) in
      match JiraConfig_from_env (environ w) with
      | Raise exc => failed exc
      | Ok jira_config =>
          match SmtpConfig_from_env (environ w) with
          | Raise exc => failed exc
          | Ok smtp_config =>
              run_report w args start (utcnow w) jira_config smtp_config t0
          end
      end
  end.
Proof.
  unfold main. destruct (Calendar.sub_days _ _); [| reflexivity].
  destruct (JiraConfig_from_env _) as [jc | exc]; cbn [rbind].
  - destruct (SmtpConfig_from_env _) as [sc | exc]; cbn [rbind]; [reflexivity |].
    destruct (is_EnvironmentError exc); reflexivity.
  - destruct (is_EnvironmentError exc); reflexivity.
Qed.

Lemma run_report_cases (start end_ : datetime) (jira_config : JiraConfig)
    (smtp_config : SmtpConfig) (t0 : trace) :
  run_report w args start end_ jira_config smtp_config t0 =
  match summarize_issues w jira_config start end_ (filters args) t0 with
  | (Raise exc, t1) =>
      if is_Exception exc
      then (Ok EXIT_SUMMARIZE, (t1 ++ [EvLog ERROR "Failed to summarize issues"])%list)
      else (Raise exc, t1)
  | (Ok summary, t1) =>
      let body := build_email_body summary jira_config in
      let t2 := (t1 ++ [EvPrint body])%list in
      if dry_run args
      then (Ok EXIT_OK, (t2 ++ [EvLog INFO "Dry run enabled; not sending email"])%list)
      else
        match send_email w smtp_config (report_subject jira_config start end_) body t2 with
        | (Ok _, t3) => (Ok EXIT_OK, t3)
        | (Raise exc, t3) =>
            if is_Exception exc
            then (Ok EXIT_DELIVERY, (t3 ++ [EvLog ERROR "Failed to send email"])%list)
            else (Raise exc, t3)
        end
  end.
Proof.
  unfold run_report, try_catch, report_subject.
  destruct (summarize_issues _ _ _ _ _ _) as [[summary | exc] t1].
  - unfold bind, emit, log, emit, ret. destruct (dry_run args); [reflexivity |].
    destruct (send_email _ _ _ _ _) as [[[] | exc] t3]; [reflexivity |].
    destruct (is_Exception exc); reflexivity.
  - destruct (is_Exception exc); reflexivity.
Qed.

Lemma sent_messages_of_commands (t : trace) :
  sent_messages t
  = flat_map (fun c => match c with SmtpSendMessage m => [m] | _ => [] end)
             (smtp_commands t).
Proof.
  induction t as [|ev t IH]; [reflexivity |].
  change (ev :: t) with ([ev] ++ t)%list.
  rewrite sent_messages_app, smtp_commands_app, flat_map_app, IH. f_equal.
  destruct ev as [r | l m | s | [ | | | | ]]; reflexivity.
Qed.

(** Summarizing neither prints nor touches the mail server. *)
Lemma summarize_issues_footprint (config : JiraConfig) (start end_ : datetime)
    (f : string) (t0 : trace) :
  let t' := snd (summarize_issues w config start end_ f t0) in
  printed t' = printed t0 /\ sent_messages t' = sent_messages t0.
Proof.
  cbv zeta. destruct (summarize_issues_quiet w config start end_ f t0) as [P S].
  split; [exact P |]. rewrite !sent_messages_of_commands, S. reflexivity.
Qed.

End WholeRun.

Section Outcomes.
Variables (w : world) (args : Namespace) (t0 : trace).

Lemma all_present (env : dict string) (required : list string) :
  (forall name, In name required -> env_missing env name = false) ->
  missing_of env required = [].
Proof.
  intros H. destruct (missing_of env required) as [|n ns] eqn:E; [reflexivity |].
  assert (In n (missing_of env required)) as Hin by (rewrite E; left; reflexivity).
  apply missing_of_spec in Hin as [Hin Hm]. rewrite (H n Hin) in Hm. discriminate.
Qed.

(** [run_report] returns 0, 2 or 3 when it returns. *)
Lemma run_report_codes (start end_ : datetime) (jira_config : JiraConfig)
    (smtp_config : SmtpConfig) (n : Z) :
  fst (run_report w args start end_ jira_config smtp_config t0) = Ok n ->
  n = EXIT_OK \/ n = EXIT_SUMMARIZE \/ n = EXIT_DELIVERY.
Proof.
  rewrite run_report_cases.
  destruct (summarize_issues _ _ _ _ _ _) as [[summary | exc] t1].
  - cbv zeta. destruct (dry_run args); [intros [= <-]; auto |].
    destruct (send_email _ _ _ _ _) as [[[] | exc] t3]; [intros [= <-]; auto |].
    destruct (is_Exception exc); [intros [= <-]; auto | discriminate].
  - destruct (is_Exception exc); [intros [= <-]; auto | discriminate].
Qed.

End Outcomes.

(** X16. When [main] returns, it returns 0, 1, 2 or 3. *)
Theorem main_exit_codes (w : world) (args : Namespace) (t0 : trace) :
  match fst (main w args t0) with
  | Ok n => n = 0 \/ n = 1 \/ n = 2 \/ n = 3
  | Raise _ => True
  end.
Proof.
  rewrite main_cases.
  destruct (Calendar.sub_days _ _) as [start |]; [| exact I]. cbv zeta.
  assert (F : forall exc,
             match fst (if is_EnvironmentError exc
                        then (Ok EXIT_CONFIG,
                              (t0 ++ [EvLog ERROR ("Configuration error: " ++ exn_str exc)])%list)
                        else (Raise exc, t0)) with
             | Ok n => n = 0 \/ n = 1 \/ n = 2 \/ n = 3
             | Raise _ => True
             end).
  { intros exc. destruct (is_EnvironmentError exc); cbn; auto. }
  destruct (JiraConfig_from_env _) as [jc | exc]; [| apply F].
  destruct (SmtpConfig_from_env _) as [sc | exc]; [| apply F].
  pose proof (run_report_codes w args t0 start (utcnow w) jc sc) as H.
  destruct (fst (run_report w args start (utcnow w) jc sc t0)) as [n |]; [| exact I].
  destruct (H n eq_refl) as [-> | [-> | ->]]; cbv; auto.
Qed.

(** X17. Once the window is computed, [main] returns 1 exactly when one of
    the ten required variables, Jira's four or SMTP's six, is unset or
    empty. *)
Theorem main_config_error_iff (w : world) (args : Namespace) (t0 : trace)
    (start : datetime) :
  Calendar.sub_days (utcnow w) (days args) = Some start ->
  (fst (main w args t0) = Ok EXIT_CONFIG
   <-> exists name,
         In name (jira_required ++ smtp_required)%list
         /\ env_missing (environ w) name = true).
Proof.
  intros Hw. rewrite main_cases, Hw. cbv zeta.
  unfold JiraConfig_from_env, SmtpConfig_from_env.
  fold (missing_of (environ w) jira_required). fold (missing_of (environ w) smtp_required).
  destruct (missing_of (environ w) jira_required) as [|nj njs] eqn:EJ.
  - destruct (missing_of (environ w) smtp_required) as [|ns nss] eqn:ES.
    + assert (N : ~ exists name,
                    In name (jira_required ++ smtp_required)%list
                    /\ env_missing (environ w) name = true).
      { intros (name & Hin & Hm). apply in_app_or in Hin as [Hin | Hin].
        - rewrite (none_missing _ _ EJ name Hin) in Hm; discriminate.
        - rewrite (none_missing _ _ ES name Hin) in Hm; discriminate. }
      destruct (PyInt.parse _) as [port |]; cbn [is_EnvironmentError fst].
      * split; [| intros H; destruct (N H)].
        intros H. apply run_report_codes in H as [H | [H | H]]; discriminate H.
      * split; [discriminate | intros H; destruct (N H)].
    + cbn [is_EnvironmentError fst]. split; [intros _ | reflexivity].
      exists ns. assert (In ns (missing_of (environ w) smtp_required)) as Hin
        by (rewrite ES; left; reflexivity).
      apply missing_of_spec in Hin as [Hin Hm]. split; [| exact Hm].
      apply in_or_app; right; exact Hin.
  - cbn [is_EnvironmentError fst]. split; [intros _ | reflexivity].
    exists nj. assert (In nj (missing_of (environ w) jira_required)) as Hin
      by (rewrite EJ; left; reflexivity).
    apply missing_of_spec in Hin as [Hin Hm]. split; [| exact Hm].
    apply in_or_app; left; exact Hin.
Qed.

Lemma main_config_error_iff_witness :
  fst (main Sample.without_password Sample.send_args []) = Ok EXIT_CONFIG.
Proof.
  apply (proj2 (main_config_error_iff Sample.without_password Sample.send_args []
                  Sample.start eq_refl)).
  exists "SMTP_PASSWORD". split; [cbn; tauto | reflexivity].
Defined.

(** X18. A lacking Jira variable is reported alone: once the window is
    computed, when one of Jira's four variables is unset or empty, [main]
    returns 1 and the one record it logs names the lacking Jira variables
    and no SMTP variable, whether or not SMTP variables are lacking
    too. *)
Theorem main_reports_jira_first (w : world) (args : Namespace) (t0 : trace)
    (start : datetime) (name : string) :
  Calendar.sub_days (utcnow w) (days args) = Some start ->
  In name jira_required ->
  env_missing (environ w) name = true ->
  main w args t0
  = (Ok EXIT_CONFIG,
     (t0 ++ [EvLog ERROR
               ("Configuration error: Missing required environment variables: "
                  ++ Text.join ", " (missing_of (environ w) jira_required))])%list).
Proof.
  intros Hw Hin Hm. rewrite main_cases, Hw. cbv zeta.
  unfold JiraConfig_from_env. fold (missing_of (environ w) jira_required).
  assert (In name (missing_of (environ w) jira_required)) as H
    by (apply missing_of_spec; auto).
  destruct (missing_of (environ w) jira_required) as [|n ns]; [destruct H |].
  reflexivity.
Qed.

Lemma main_reports_jira_first_witness :
  main (Sample.answering (HttpRaises KeyboardInterrupt)) Sample.dry_run_args []
  = (Ok 1,
     [EvLog ERROR
        ("Configuration error: Missing required environment variables: "
           ++ "JIRA_BASE_URL, JIRA_PROJECT_KEY, JIRA_AUTH_EMAIL, JIRA_API_TOKEN")]).
Proof.
  exact (main_reports_jira_first (Sample.answering (HttpRaises KeyboardInterrupt))
           Sample.dry_run_args [] Sample.start "JIRA_API_TOKEN" eq_refl
           ltac:(cbn; tauto) eq_refl).
Defined.

(** X19. A port that is no integer literal is not a configuration error
    for [main]: once the window is computed, with all ten variables set
    and an SMTP_PORT of at most 640 ASCII characters that is no decimal
    literal as [int] reads ASCII text, [main] raises [ValueError] instead
    of returning, logs nothing and sends nothing. *)
Theorem main_bad_port (w : world) (args : Namespace) (t0 : trace) (start : datetime) :
  Calendar.sub_days (utcnow w) (days args) = Some start ->
  (forall name, In name (jira_required ++ smtp_required)%list ->
                env_missing (environ w) name = false) ->
  PyInt.in_domain (env_at (environ w) "SMTP_PORT") = true ->
  PyInt.parse (env_at (environ w) "SMTP_PORT") = None ->
  exists msg, main w args t0 = (Raise (ValueError msg), t0).
Proof.
  intros Hw Hp _ Hport. rewrite main_cases, Hw. cbv zeta.
  unfold JiraConfig_from_env, SmtpConfig_from_env.
  fold (missing_of (environ w) jira_required). fold (missing_of (environ w) smtp_required).
  rewrite (all_present (environ w) jira_required),
          (all_present (environ w) smtp_required), Hport.
  - eexists; reflexivity.
  - intros name Hin. apply Hp, in_or_app; right; exact Hin.
  - intros name Hin. apply Hp, in_or_app; left; exact Hin.
Qed.

Lemma main_bad_port_witness :
  exists msg, main Sample.bad_port Sample.dry_run_args [] = (Raise (ValueError msg), []).
Proof.
  apply (main_bad_port Sample.bad_port Sample.dry_run_args [] Sample.start eq_refl);
    [| reflexivity | reflexivity].
  intros name Hin. cbn in Hin.
  repeat (destruct Hin as [<- | Hin]; [reflexivity |]). destruct Hin.
Defined.

(** X20. When summarizing raises an [Exception], [main] logs "Failed to
    summarize issues" and returns 2; nothing has been printed and the mail
    server has not been contacted. *)
Theorem main_summarize_failure (w : world) (args : Namespace) (t0 t1 : trace)
    (start : datetime) (jira_config : JiraConfig) (smtp_config : SmtpConfig)
    (exc : exn) :
  Calendar.sub_days (utcnow w) (days args) = Some start ->
  JiraConfig_from_env (environ w) = Ok jira_config ->
  SmtpConfig_from_env (environ w) = Ok smtp_config ->
  summarize_issues w jira_config start (utcnow w) (filters args) t0 = (Raise exc, t1) ->
  is_Exception exc = true ->
  main w args t0
  = (Ok EXIT_SUMMARIZE, (t1 ++ [EvLog ERROR "Failed to summarize issues"])%list)
  /\ printed (snd (main w args t0)) = printed t0
  /\ smtp_commands (snd (main w args t0)) = smtp_commands t0.
Proof.
  intros Hw Hj Hs Hsum Hexc.
  assert (E : main w args t0
              = (Ok EXIT_SUMMARIZE,
                 (t1 ++ [EvLog ERROR "Failed to summarize issues"])%list)).
  { rewrite main_cases, Hw, Hj, Hs, run_report_cases, Hsum, Hexc. reflexivity. }
  rewrite E; cbn [snd]. split; [reflexivity |].
  pose proof (summarize_issues_quiet w jira_config start (utcnow w) (filters args) t0)
    as [P S].
  rewrite Hsum in P, S; cbn [snd] in P, S.
  rewrite printed_app, smtp_commands_app, P, S; cbn. rewrite !List.app_nil_r. auto.
Qed.

Lemma main_summarize_failure_witness :
  main Sample.tracker_down Sample.send_args []
  = (Ok 2,
     [EvHttpGet (request_for Sample.config Sample.start Sample.end_ "" "created");
      EvLog ERROR "Failed to call Jira API: connection refused";
      EvLog ERROR "Failed to summarize issues"]).
Proof.
  exact (proj1 (main_summarize_failure Sample.tracker_down Sample.send_args [] _
                  Sample.start Sample.config Sample.smtp
                  (RequestException "connection refused")
                  eq_refl eq_refl eq_refl eq_refl eq_refl)).
Defined.



(** X22. A failed delivery comes after the printing: when [send_email]
    raises an [Exception], [main] logs "Failed to send email" and returns
    3, and the body has been printed all the same. *)
Theorem main_delivery_failure (w : world) (args : Namespace) (t0 t1 t3 : trace)
    (start : datetime) (jira_config : JiraConfig) (smtp_config : SmtpConfig)
    (summary : JiraIssueSummary) (exc : exn) :
  dry_run args = false ->
  Calendar.sub_days (utcnow w) (days args) = Some start ->
  JiraConfig_from_env (environ w) = Ok jira_config ->
  SmtpConfig_from_env (environ w) = Ok smtp_config ->
  summarize_issues w jira_config start (utcnow w) (filters args) t0 = (Ok summary, t1) ->
  send_email w smtp_config (report_subject jira_config start (utcnow w))
    (build_email_body summary jira_config)
    (t1 ++ [EvPrint (build_email_body summary jira_config)])%list
  = (Raise exc, t3) ->
  is_Exception exc = true ->
  main w args t0 = (Ok EXIT_DELIVERY, (t3 ++ [EvLog ERROR "Failed to send email"])%list)
  /\ printed (snd (main w args t0))
     = (printed t0 ++ [build_email_body summary jira_config])%list.
Proof.
  intros Hdry Hw Hj Hs Hsum Hsend Hexc.
  assert (E : main w args t0
              = (Ok EXIT_DELIVERY, (t3 ++ [EvLog ERROR "Failed to send email"])%list)).
  { rewrite main_cases, Hw, Hj, Hs, run_report_cases, Hsum, Hdry. cbv zeta.
    rewrite Hsend, Hexc. reflexivity. }
  rewrite E; cbn [snd]. split; [reflexivity |].
  pose proof (summarize_issues_footprint w jira_config start (utcnow w) (filters args) t0)
    as [P _].
  rewrite Hsum in P; cbn [snd] in P.
  pose proof (send_email_footprint w smtp_config
                (report_subject jira_config start (utcnow w))
                (build_email_body summary jira_config)
                (t1 ++ [EvPrint (build_email_body summary jira_config)])%list)
    as (_ & P' & _).
  rewrite Hsend in P'; cbn [snd] in P'.
  rewrite printed_app, P', printed_app, P; cbn. rewrite !List.app_nil_r. reflexivity.
Qed.

Lemma main_delivery_failure_witness :
  fst (main Sample.mail_down Sample.send_args []) = Ok 3
  /\ printed (snd (main Sample.mail_down Sample.send_args []))
     = [build_email_body Sample.summary Sample.config].
Proof.
  destruct (main_delivery_failure Sample.mail_down Sample.send_args []
              (snd (summarize_issues Sample.mail_down Sample.config Sample.start
                      Sample.end_ "" []))
              _ Sample.start Sample.config Sample.smtp Sample.summary
              (OtherException "connection refused")
              eq_refl eq_refl eq_refl eq_refl eq_refl eq_refl eq_refl)
    as (H1 & H2).
  split; [rewrite H1; reflexivity | exact H2].
Defined.

(** X23. In every run, however it ends, [main] sends at most three
    requests to the tracker, prints at most once and hands at most one
    message to the mail server; a message is handed over only in a run
    that is no dry run, and only after the body was printed. *)
Theorem main_effect_bounds (w : world) (args : Namespace) (t0 : trace) :
  let t' := snd (main w args t0) in
  exists reqs prints sent,
    http_requests t' = (http_requests t0 ++ reqs)%list
    /\ (List.length reqs <= 3)%nat
    /\ printed t' = (printed t0 ++ prints)%list
    /\ (List.length prints <= 1)%nat
    /\ sent_messages t' = (sent_messages t0 ++ sent)%list
    /\ (List.length sent <= 1)%nat
    /\ (sent <> [] -> dry_run args = false /\ List.length prints = 1%nat).
Proof.
  cbv zeta.
  assert (Z0 : forall t, http_requests t = http_requests t0 ->
                         printed t = printed t0 ->
                         sent_messages t = sent_messages t0 ->
             exists reqs prints sent,
               http_requests t = (http_requests t0 ++ reqs)%list
               /\ (List.length reqs <= 3)%nat
               /\ printed t = (printed t0 ++ prints)%list
               /\ (List.length prints <= 1)%nat
               /\ sent_messages t = (sent_messages t0 ++ sent)%list
               /\ (List.length sent <= 1)%nat
               /\ (sent <> [] -> dry_run args = false /\ List.length prints = 1%nat)).
  { intros t H1 H2 H3. exists [], [], []. rewrite !List.app_nil_r. cbn.
    repeat split; try assumption; try lia; congruence. }
  rewrite main_cases.
  destruct (Calendar.sub_days _ _) as [start |]; [| apply Z0; reflexivity].
  cbv zeta.
  assert (F : forall exc,
             let t := snd (if is_EnvironmentError exc
                           then (Ok EXIT_CONFIG,
                                 (t0 ++ [EvLog ERROR ("Configuration error: "
                                                        ++ exn_str exc)])%list)
                           else (Raise exc, t0)) in
             http_requests t = http_requests t0 /\ printed t = printed t0
             /\ sent_messages t = sent_messages t0).
  { intros exc. destruct (is_EnvironmentError exc); cbn [snd];
      rewrite ?http_requests_app, ?printed_app, ?sent_messages_app; cbn;
      rewrite ?List.app_nil_r; auto. }
  destruct (JiraConfig_from_env _) as [jc | exc];
    [| destruct (F exc) as (A & B & C); apply Z0; assumption].
  destruct (SmtpConfig_from_env _) as [sc | exc];
    [| destruct (F exc) as (A & B & C); apply Z0; assumption].
  clear Z0 F. rewrite run_report_cases.
  destruct (summarize_issues_prefix w jc start (utcnow w) (filters args) t0)
    as (n & Hn & R & _).
  destruct (summarize_issues_footprint w jc start (utcnow w) (filters args) t0)
    as [P S].
  assert (L : (List.length (firstn n (map (request_for jc start (utcnow w) (filters args))
                                          labels)) <= 3)%nat).
  { rewrite length_firstn. cbn. lia. }
  destruct (summarize_issues _ _ _ _ _ _) as [[summary | exc] t1]; cbn [snd] in R, P, S.
  - cbv zeta. destruct (dry_run args) eqn:Hdry.
    + exists (firstn n (map (request_for jc start (utcnow w) (filters args)) labels)), [build_email_body summary jc], []. cbn [snd].
      rewrite !http_requests_app, !printed_app, !sent_messages_app, R, P, S; cbn.
      rewrite !List.app_nil_r.
      repeat split; try reflexivity; try lia; try exact L; congruence.
    + destruct (send_email_footprint w sc (report_subject jc start (utcnow w))
                  (build_email_body summary jc)
                  (t1 ++ [EvPrint (build_email_body summary jc)])%list)
        as (H' & P' & sent & S' & Hsent & _).
      assert (Ls : (List.length sent <= 1)%nat)
        by (destruct Hsent as [-> | ->]; cbn; lia).
      destruct (send_email _ _ _ _ _) as [[[] | exc] t3]; cbn [snd] in H', P', S';
        [| destruct (is_Exception exc)]; cbn [snd];
        exists (firstn n (map (request_for jc start (utcnow w) (filters args)) labels)), [build_email_body summary jc], sent;
        rewrite ?http_requests_app, ?printed_app, ?sent_messages_app, H', P', S',
          ?http_requests_app, ?printed_app, ?sent_messages_app, R, P, S; cbn;
        rewrite !List.app_nil_r;
        repeat split; try reflexivity; try lia; try exact L; try exact Ls.
  - destruct (is_Exception exc); cbn [snd];
      exists (firstn n (map (request_for jc start (utcnow w) (filters args)) labels)), [], [];
      rewrite ?http_requests_app, ?printed_app, ?sent_messages_app, R, P, S; cbn;
      rewrite !List.app_nil_r;
      repeat split; try reflexivity; try lia; try exact L; congruence.
Qed.

(** X24. An exception that is no [Exception], such as a keyboard
    interrupt during a tracker call, is not turned into an exit code: when
    summarizing raises it, [main] raises it too, without the record
    "Failed to summarize issues", without printing and without mail. *)
Theorem main_lets_interrupt_through (w : world) (args : Namespace) (t0 t1 : trace)
    (start : datetime) (jira_config : JiraConfig) (smtp_config : SmtpConfig)
    (exc : exn) :
  Calendar.sub_days (utcnow w) (days args) = Some start ->
  JiraConfig_from_env (environ w) = Ok jira_config ->
  SmtpConfig_from_env (environ w) = Ok smtp_config ->
  summarize_issues w jira_config start (utcnow w) (filters args) t0 = (Raise exc, t1) ->
  is_Exception exc = false ->
  main w args t0 = (Raise exc, t1)
  /\ printed t1 = printed t0
  /\ smtp_commands t1 = smtp_commands t0.
Proof.
  intros Hw Hj Hs Hsum Hexc.
  split; [rewrite main_cases, Hw, Hj, Hs, run_report_cases, Hsum, Hexc; reflexivity |].
  pose proof (summarize_issues_quiet w jira_config start (utcnow w) (filters args) t0)
    as [P S].
  rewrite Hsum in P, S. exact (conj P S).
Qed.

Lemma main_lets_interrupt_through_witness :
  main {| environ := Sample.full_environ;
          utcnow := Sample.end_;
          http_get := fun _ _ => HttpRaises KeyboardInterrupt;
          smtp_do := fun _ _ => None |}
       Sample.send_args []
  = (Raise KeyboardInterrupt,
     [EvHttpGet (request_for Sample.config Sample.start Sample.end_ "" "created")]).
Proof.
  exact (proj1 (main_lets_interrupt_through
                  {| environ := Sample.full_environ;
                     utcnow := Sample.end_;
                     http_get := fun _ _ => HttpRaises KeyboardInterrupt;
                     smtp_do := fun _ _ => None |}
                  Sample.send_args [] _ Sample.start Sample.config Sample.smtp
                  KeyboardInterrupt eq_refl eq_refl eq_refl eq_refl eq_refl)).
Defined.

(** X25. The queries compare by date, not by time: two windows whose
    start dates agree in year, month and day, and whose end dates do, give
    the same three queries, whatever their times of day. *)
Theorem build_jql_ignores_time (k f : string) (start start' end_ end' : datetime) :
  year start = year start' -> month start = month start' -> day start = day start' ->
  year end_ = year end' -> month end_ = month end' -> day end_ = day end' ->
  build_jql k start end_ f = build_jql k start' end' f.
Proof.
  intros Hy Hm Hd Hy' Hm' Hd'. unfold build_jql, Calendar.strftime_Ymd.
  rewrite Hy, Hm, Hd, Hy', Hm', Hd'. reflexivity.
Qed.

Lemma build_jql_ignores_time_witness :
  build_jql "SCAL" Sample.start Sample.end_ ""
  = build_jql "SCAL" (mk_datetime 2024 6 3 0 0 0 0) (mk_datetime 2024 6 10 23 59 59 999999) "".
Proof.
  exact (build_jql_ignores_time "SCAL" "" Sample.start (mk_datetime 2024 6 3 0 0 0 0)
           Sample.end_ (mk_datetime 2024 6 10 23 59 59 999999)
           eq_refl eq_refl eq_refl eq_refl eq_refl eq_refl).
Defined.
